(** * Gateway service (server.js): a shallow embedding and its properties

    The program is an Express application whose eight request handlers share
    six module-level variables and delegate every piece of real work to the
    Telegram client library, to the JavaScript runtime and to the file
    system.  The embedding keeps that shape:

    - the module-level variables are the fields of [State];
    - a handler is a computation in a small state-and-exception monad [M];
    - every call that leaves the module (client library, [fs]) is a
      constructor of [Call]; a [Platform] answers it, and the monad records
      each attempt, with its outcome, in a trace;
    - [try]/[catch]/[finally] are the combinators [try_catch] and
      [try_finally].

    Handlers are modelled one request at a time: the interleaving of
    concurrent requests at [await] points is outside this development, and
    so are [console.log] and [console.error].

    What the handlers receive is typed as follows.  [req.body] is an object
    (body-parser 1 leaves [{}] when a request carries no JSON), a field it
    lacks reads [undefined], and the fields the handlers test are JSON
    scalars with integral numbers; a request whose [req.body] is itself
    [undefined] (body-parser 2 with nothing to parse) goes through
    [without_body].  The uploads of [POST /send] are on disk, written by
    multer, before the handler runs: the handler sees their paths only.
    What the library returns is typed by the
    use the handlers make of it: a client object with or without the methods
    they probe with [typeof], a code-request result seen through the three
    fields they read, a login token that is a [Buffer] or a plain
    [Uint8Array], dialogs with a
    boolean flag, a big-integer identifier and a title.  What is thrown is
    an [Error] or another value that has a [toString], and it is kept as
    the string [err.toString()] makes of it; a rejection with [undefined]
    or [null], on which the [catch] block itself would throw, is outside
    this typing, and so is a call that never settles. *)

From Stdlib Require Import ZArith String List Ascii Bool Lia.
From Stdlib.Strings Require Import Byte.
From Stdlib Require Import DecimalString DecimalZ DecimalPos.
From stdpp Require Import gmap strings list.

Local Open Scope string_scope.
Local Open Scope Z_scope.

(** ** JavaScript values *)

Module JS.

(** The values a JSON request body or a library result can put in a field
    the handlers look at: [undefined] (an absent field), [null], booleans,
    integral numbers and strings. *)
Inductive scalar : Type :=
| SUndefined
| SNull
| SBool (b : bool)
| SNum (z : Z)
| SStr (s : string).

(** A value read back from an object may also be one of the runtime's own
    objects: [Object.prototype] or one of its methods. *)
Inductive jsval : Type :=
| VScalar (v : scalar)
| VBuiltin (name : string).

Definition string_is_empty (s : string) : bool :=
  match s with EmptyString => true | String _ _ => false end.

(** ToBoolean: what [!x], [x || y] and [x ? a : b] test. *)
Definition truthy (v : scalar) : bool :=
  match v with
  | SUndefined | SNull => false
  | SBool b => b
  | SNum z => negb (z =? 0)
  | SStr s => negb (string_is_empty s)
  end.

Definition truthy_val (v : jsval) : bool :=
  match v with
  | VScalar s => truthy s
  | VBuiltin _ => true
  end.

(** [a || b] *)
Definition or_else (a b : scalar) : scalar := if truthy a then a else b.

(** The data properties [Object.prototype] gives every object literal. *)
Definition object_prototype_methods : list string :=
  [ "constructor"; "hasOwnProperty"; "isPrototypeOf"; "propertyIsEnumerable";
    "toLocaleString"; "toString"; "valueOf";
    "__defineGetter__"; "__defineSetter__"; "__lookupGetter__"; "__lookupSetter__" ].

Definition is_object_prototype_method (k : string) : bool :=
  existsb (String.eqb k) object_prototype_methods.

(** An object written [{}] and used as a dictionary: its own properties,
    and whether its prototype is still [Object.prototype] or has been set to
    [null] (the only two prototypes an assignment of a [scalar] can give
    it). *)
Record object : Type := {
  own : gmap string scalar;
  proto_null : bool
}.

(** [{}] *)
Definition empty_object : object := {| own := ∅; proto_null := false |}.

(** [o[k]]: an own property, else what the prototype chain gives; the
    accessor [__proto__] of [Object.prototype] returns the prototype. *)
Definition get (o : object) (k : string) : jsval :=
  match own o !! k with
  | Some v => VScalar v
  | None =>
      if proto_null o then VScalar SUndefined
      else if String.eqb k "__proto__" then VBuiltin "Object.prototype"
      else if is_object_prototype_method k then VBuiltin k
      else VScalar SUndefined
  end.

(** [o[k] = v]: an own property is updated; otherwise the setter of the
    inherited accessor [__proto__] runs (it changes the prototype when [v]
    is [null] and ignores every other scalar); any other key becomes an own
    property. *)
Definition set (o : object) (k : string) (v : scalar) : object :=
  match own o !! k with
  | Some _ => {| own := <[k := v]> (own o); proto_null := proto_null o |}
  | None =>
      if negb (proto_null o) && String.eqb k "__proto__" then
        match v with
        | SNull => {| own := own o; proto_null := true |}
        | _ => o
        end
      else {| own := <[k := v]> (own o); proto_null := proto_null o |}
  end.

End JS.

Import JS.

(** ** Base64, as [Buffer.prototype.toString('base64')] produces it *)

Module Base64.

Definition alphabet : list ascii :=
  list_ascii_of_string
    "ABCDEFGHIJKLMNOPQRSTUVWXYZabcdefghijklmnopqrstuvwxyz0123456789+/".

Definition digit (n : N) : ascii := nth (N.to_nat n) alphabet "="%char.

(** Three octets make four digits; a final group of one or two octets is
    padded with [=]. *)
Fixpoint encode_octets (l : list N) : list ascii :=
  match l with
  | [] => []
  | [a] =>
      [ digit (N.shiftr a 2); digit (N.shiftl (N.land a 3) 4); "="%char; "="%char ]
  | [a; b] =>
      [ digit (N.shiftr a 2);
        digit (N.lor (N.shiftl (N.land a 3) 4) (N.shiftr b 4));
        digit (N.shiftl (N.land b 15) 2); "="%char ]
  | a :: b :: c :: rest =>
      digit (N.shiftr a 2)
      :: digit (N.lor (N.shiftl (N.land a 3) 4) (N.shiftr b 4))
      :: digit (N.lor (N.shiftl (N.land b 15) 2) (N.shiftr c 6))
      :: digit (N.land c 63)
      :: encode_octets rest
  end.

Definition encode (buf : list byte) : string :=
  string_of_list_ascii (encode_octets (map Byte.to_N buf)).

Definition of_text (s : string) : list byte := list_byte_of_string s.

End Base64.

(** ** What leaves the module: the client library and the file system *)

(** An instance of [TelegramClient]; the flags answer the handlers'
    [typeof client.m === 'function'] tests and the optional call
    [disconnect?.()]. *)
Record Client : Type := {
  cid : nat;
  has_sendCodeRequest : bool;
  has_signIn : bool;
  has_qrLogin : bool;
  has_disconnect : bool
}.

(** An instance of [StringSession]. *)
Record Session : Type := { sid : nat }.

(** The login token of a QR attempt: a [Buffer], or a plain [Uint8Array]
    (the handler's comment expects either). *)
Inductive Token : Type :=
| BufferToken (octets : list byte)
| Uint8ArrayToken (octets : list byte).

Definition octet_decimal (b : byte) : string :=
  NilZero.string_of_uint (N.to_uint (Byte.to_N b)).

(** [token.toString('base64')]: a [Buffer] takes the encoding and renders
    its octets in base64; a plain [Uint8Array] has only the [toString] of
    arrays, which ignores the argument and joins the elements, in decimal,
    with commas. *)
Definition token_toString_base64 (t : Token) : string :=
  match t with
  | BufferToken octets => Base64.encode octets
  | Uint8ArrayToken octets => String.concat "," (map octet_decimal octets)
  end.

(** What [qrLogin()] resolves to: a token and a [wait] method. *)
Record QrLogin : Type := {
  qid : nat;
  token : Token
}.

(** What [sendCodeRequest] or [sendCode] resolves to, seen through the
    three fields the handler reads. *)
Record CodeResult : Type := {
  phoneCodeHash : scalar;
  phone_code_hash : scalar;
  underscore : scalar
}.

(** An entry of [getDialogs()]; [d_id] is a big integer. *)
Record Dialog : Type := {
  d_isChannel : bool;
  d_id : Z;
  d_title : string
}.

(** An entry of [req.files], as multer leaves it. *)
Record UploadedFile : Type := {
  path : string;
  originalname : string
}.

(** A thrown value, as [err.toString()] renders it. *)
Definition exn : Type := string.

Inductive Call : Type :=
| NewStringSession (session : scalar)
| NewTelegramClient (session : Session) (apiId apiHash : scalar)
| Connect (c : Client)
| Disconnect (c : Client)
| SendCodeRequest (c : Client) (phone : scalar)
| SendCode (c : Client) (phone : scalar)
| SignInObject (c : Client) (phoneNumber phoneCode : scalar) (phoneCodeHash : jsval)
| SignInPositional (c : Client) (phone code : scalar)
| SessionSave (c : Client)
| QrLoginCall (c : Client)
| QrWaitRace (q : QrLogin)
| GetDialogs (c : Client)
| SendFile (c : Client) (target : scalar) (file caption : string)
| SendMessage (c : Client) (target : scalar) (file caption : string)
| UnlinkSync (file : string).

(** The type of what a call evaluates to when it does not throw.  A code
    request may resolve to [null] or [undefined] ([None]). *)
Definition ret (c : Call) : Type :=
  match c with
  | NewStringSession _ => Session
  | NewTelegramClient _ _ _ => Client
  | SendCodeRequest _ _ | SendCode _ _ => option CodeResult
  | SessionSave _ => scalar
  | QrLoginCall _ => QrLogin
  | GetDialogs _ => list Dialog
  | _ => unit
  end.

Inductive result (A : Type) : Type :=
| Ok (a : A)
| Throw (e : exn).
Arguments Ok {A} a.
Arguments Throw {A} e.

(** The world the server runs in: the library and the network behind it,
    the file system, and the three runtime functions whose result the
    handlers only pass along. *)
Class Platform : Type := {
  World : Type;
  perform : forall c : Call, World -> result (ret c) * World;
  js_Number : scalar -> scalar;
  js_Number_toString : Z -> string;
  path_resolve : string -> string
}.

(** One entry of the trace: the call and, if it threw, what it threw. *)
Record Event : Type := { ev_call : Call; ev_threw : option exn }.

Definition returned (c : Call) : Event := {| ev_call := c; ev_threw := None |}.
Definition threw (c : Call) (e : exn) : Event := {| ev_call := c; ev_threw := Some e |}.

(** ** The module-level variables *)

Record State : Type := {
  client : option Client;
  sessionString : scalar;
  storedApiId : scalar;
  storedApiHash : scalar;
  phoneState : JS.object;
  qrWaiter : option QrLogin
}.

Definition initial_state : State := {|
  client := None;
  sessionString := SStr "";
  storedApiId := SNull;
  storedApiHash := SNull;
  phoneState := JS.empty_object;
  qrWaiter := None
|}.

Definition set_client (c : Client) (s : State) : State :=
  {| client := Some c; sessionString := sessionString s;
     storedApiId := storedApiId s; storedApiHash := storedApiHash s;
     phoneState := phoneState s; qrWaiter := qrWaiter s |}.

Definition set_sessionString (v : scalar) (s : State) : State :=
  {| client := client s; sessionString := v;
     storedApiId := storedApiId s; storedApiHash := storedApiHash s;
     phoneState := phoneState s; qrWaiter := qrWaiter s |}.

Definition set_storedApiId (v : scalar) (s : State) : State :=
  {| client := client s; sessionString := sessionString s;
     storedApiId := v; storedApiHash := storedApiHash s;
     phoneState := phoneState s; qrWaiter := qrWaiter s |}.

Definition set_storedApiHash (v : scalar) (s : State) : State :=
  {| client := client s; sessionString := sessionString s;
     storedApiId := storedApiId s; storedApiHash := v;
     phoneState := phoneState s; qrWaiter := qrWaiter s |}.

Definition set_phoneState (o : JS.object) (s : State) : State :=
  {| client := client s; sessionString := sessionString s;
     storedApiId := storedApiId s; storedApiHash := storedApiHash s;
     phoneState := o; qrWaiter := qrWaiter s |}.

Definition set_qrWaiter (q : option QrLogin) (s : State) : State :=
  {| client := client s; sessionString := sessionString s;
     storedApiId := storedApiId s; storedApiHash := storedApiHash s;
     phoneState := phoneState s; qrWaiter := q |}.

(** ** Responses *)

Record Channel : Type := { ch_id : string; ch_title : string }.

Inductive Body : Type :=
| BError (error : string)
| BOk
| BOkSession (session : scalar)
| BOkQr (qrData : string)
| BLoggedIn (loggedIn : bool)
| BChannels (channels : list Channel)
| BSent.

Record Response : Type := { status : Z; body : Body }.

(** [res.json(b)] and [res.status(n).json(b)] *)
Definition json (b : Body) : Response := {| status := 200; body := b |}.
Definition status_json (n : Z) (b : Body) : Response := {| status := n; body := b |}.

(** The routes that read [req.body]. *)
Inductive BodyRoute : Type :=
| ToAuthStart
| ToAuthSendCode
| ToAuthVerify
| ToAuthQrStart
| ToSend.

(** ** The monad of handler bodies *)

Section Gateway.

Context {P : Platform}.

(** What a request runs against: the module-level variables, the world, and
    the calls attempted so far. *)
Record Env : Type := {
  gw : State;
  world : World;
  trace : list Event
}.

Definition M (A : Type) : Type := Env -> result A * Env.

#[export] Instance M_ret : MRet M := fun A a env => (Ok a, env).

#[export] Instance M_bind : MBind M := fun A B k m env =>
  match m env with
  | (Ok a, env') => k a env'
  | (Throw e, env') => (Throw e, env')
  end.

Definition throw {A : Type} (e : exn) : M A := fun env => (Throw e, env).

(** [try { m } catch (e) { h e }] *)
Definition try_catch {A : Type} (m : M A) (h : exn -> M A) : M A := fun env =>
  match m env with
  | (Ok a, env') => (Ok a, env')
  | (Throw e, env') => h e env'
  end.

(** [try { m } finally { f }]: [f] runs whatever [m] did, and the outcome is
    [m]'s unless [f] itself throws. *)
Definition try_finally {A : Type} (m : M A) (f : M unit) : M A := fun env =>
  let (r, env1) := m env in
  match f env1 with
  | (Ok _, env2) => (r, env2)
  | (Throw e, env2) => (Throw e, env2)
  end.

Definition event_of {A : Type} (c : Call) (r : result A) : Event :=
  match r with
  | Ok _ => returned c
  | Throw e => threw c e
  end.

(** A call that leaves the module: the platform answers, the trace grows. *)
Definition call (c : Call) : M (ret c) := fun env =>
  let (r, w) := perform c (world env) in
  (r, {| gw := gw env; world := w; trace := trace env ++ [event_of c r] |}).

Definition with_gw (g : State) (env : Env) : Env :=
  {| gw := g; world := world env; trace := trace env |}.

(** Reading and assigning the module-level variables. *)
Definition read {A : Type} (f : State -> A) : M A := fun env => (Ok (f (gw env)), env).

Definition modify (f : State -> State) : M unit := fun env =>
  (Ok tt, with_gw (f (gw env)) env).

(** A handler: [try { body } catch (err) { return res.status(500).json({ error: err.toString() }) }] *)
Definition Handler : Type := Env -> Response * Env.

Definition catching (m : M Response) : Handler := fun env =>
  match m env with
  | (Ok r, env') => (r, env')
  | (Throw e, env') => (status_json 500 (BError e), env')
  end.

(** ** Helpers of the handlers *)

(** ToPropertyKey on a scalar: a string is its own key. *)
Definition to_property_key (v : scalar) : string :=
  match v with
  | SUndefined => "undefined"
  | SNull => "null"
  | SBool true => "true"
  | SBool false => "false"
  | SNum z => js_Number_toString z
  | SStr s => s
  end.

(** The decimal rendering of a big integer ([d.id.toString()]). *)
Definition bigint_toString (z : Z) : string := NilZero.string_of_int (Z.to_int z).

(** What reading [result.phoneCodeHash] throws when the code request
    resolved to [undefined] (for [null] the runtime writes that word in
    place of [undefined]). *)
Definition TypeError_nullish : exn :=
  "TypeError: Cannot read properties of undefined (reading 'phoneCodeHash')".

(** What calling [client.signIn] throws when [typeof client.signIn] is not
    ['function']: the call never reaches the library. *)
Definition TypeError_signIn : exn :=
  "TypeError: client.signIn is not a function".

(** [createClient(apiId, apiHash, existingSession='')] *)
Definition createClient (apiId apiHash existingSession : scalar) : M Client :=
  stringSession ← call (NewStringSession (or_else existingSession (SStr "")));
  tg ← call (NewTelegramClient stringSession (js_Number apiId) apiHash);
  _ ← call (Connect tg);
  mret tg.

(** [result.phoneCodeHash || result.phone_code_hash || (result._ ? result._ : null)] *)
Definition pick_hash (r : CodeResult) : scalar :=
  or_else (or_else (phoneCodeHash r) (phone_code_hash r))
          (if truthy (underscore r) then underscore r else SNull).

(** [typeof client.sendCodeRequest === 'function' ? client.sendCodeRequest(phone) : client.sendCode(phone)] *)
Definition code_request (c : Client) (phone : scalar) : M (option CodeResult) :=
  if has_sendCodeRequest c
  then call (SendCodeRequest c phone)
  else call (SendCode c phone).

(** [if (!client) client = await createClient(storedApiId, storedApiHash, '')],
    then the value of [client]. *)
Definition ensure_client : M Client :=
  cl ← read client;
  match cl with
  | Some c => mret c
  | None =>
      apiId ← read storedApiId;
      apiHash ← read storedApiHash;
      c ← createClient apiId apiHash (SStr "");
      _ ← modify (set_client c);
      mret c
  end.

(** ** The handlers *)

(** [POST /auth/start] *)
Definition auth_start (apiId apiHash : scalar) : Handler := catching (
  if negb (truthy apiId) || negb (truthy apiHash)
  then mret (status_json 400 (BError "apiId & apiHash required"))
  else
    _ ← modify (set_storedApiId (js_Number apiId));
    _ ← modify (set_storedApiHash apiHash);
    s ← read sessionString;
    c ← createClient apiId apiHash s;
    _ ← modify (set_client c);
    mret (json BOk)).

(** [POST /auth/sendCode] *)
Definition auth_sendCode (phone : scalar) : Handler := catching (
  cl ← read client;
  match cl with
  | None => mret (status_json 400 (BError "client not initialized (call /auth/start)"))
  | Some c =>
      if negb (truthy phone)
      then mret (status_json 400 (BError "phone required"))
      else
        result ← code_request c phone;
        match result with
        | None => throw TypeError_nullish
        | Some r =>
            let phone_code_hash := pick_hash r in
            _ ← modify (fun s =>
                  set_phoneState (JS.set (phoneState s) (to_property_key phone) phone_code_hash) s);
            mret (json BOk)
        end
  end).

(** [POST /auth/verify] *)
Definition auth_verify (phone code : scalar) : Handler := catching (
  cl ← read client;
  match cl with
  | None => mret (status_json 400 (BError "client not initialized"))
  | Some c =>
      if negb (truthy phone) || negb (truthy code)
      then mret (status_json 400 (BError "phone & code required"))
      else
        ps ← read phoneState;
        let phone_code_hash := JS.get ps (to_property_key phone) in
        if negb (truthy_val phone_code_hash)
        then mret (status_json 400
               (BError "no phone_code_hash for this phone. Call /auth/sendCode first"))
        else
          _ ← (if has_signIn c
               then try_catch (call (SignInObject c phone code phone_code_hash))
                              (fun _ => call (SignInPositional c phone code))
               else throw TypeError_signIn);
          s ← call (SessionSave c);
          _ ← modify (set_sessionString s);
          mret (json (BOkSession s))
  end).

(** [POST /auth/qr/start] *)
Definition auth_qr_start (apiId apiHash : scalar) : Handler := catching (
  if negb (truthy apiId) || negb (truthy apiHash)
  then mret (status_json 400 (BError "apiId & apiHash required"))
  else
    tmpClient ← createClient apiId apiHash (SStr "");
    if negb (has_qrLogin tmpClient)
    then
      _ ← (if has_disconnect tmpClient then call (Disconnect tmpClient) else mret tt);
      mret (status_json 501 (BError "QR login not supported by library version on server"))
    else
      qr ← call (QrLoginCall tmpClient);
      let tokenText := token_toString_base64 (token qr) in
      _ ← modify (set_qrWaiter (Some qr));
      mret (json (BOkQr ("data:text/plain;base64," ++ tokenText)))).

(** [GET /auth/qr/status] *)
Definition auth_qr_status : Handler := catching (
  w ← read qrWaiter;
  match w with
  | None => mret (json (BLoggedIn false))
  | Some q =>
      try_catch
        (_ ← call (QrWaitRace q);
         c ← ensure_client;
         s ← call (SessionSave c);
         _ ← modify (set_sessionString s);
         mret (json (BLoggedIn true)))
        (fun _ => mret (json (BLoggedIn false)))
  end).

(** [POST /auth/qr/cancel] *)
Definition auth_qr_cancel : Handler := fun env =>
  match modify (set_qrWaiter None) env with
  | (_, env') => (json BOk, env')
  end.

(** [GET /channels] *)
Definition channels : Handler := catching (
  cl ← read client;
  match cl with
  | None => mret (status_json 400 (BError "not logged in"))
  | Some c =>
      dialogs ← call (GetDialogs c);
      mret (json (BChannels
        (map (fun d => {| ch_id := bigint_toString (d_id d); ch_title := d_title d |})
             (List.filter (fun d => d_isChannel d) dialogs))))
  end).

(** The loop of [POST /send] over [req.files || []]. *)
Fixpoint send_files (c : Client) (channelId : scalar) (files : list UploadedFile) : M unit :=
  match files with
  | [] => mret tt
  | f :: rest =>
      let filePath := path_resolve (path f) in
      _ ← try_finally
            (try_catch (call (SendFile c channelId filePath (originalname f)))
                       (fun _ => call (SendMessage c channelId filePath (originalname f))))
            (try_catch (call (UnlinkSync filePath)) (fun _ => mret tt));
      send_files c channelId rest
  end.

(** [POST /send] *)
Definition send (channelId : scalar) (files : list UploadedFile) : Handler := catching (
  cl ← read client;
  match cl with
  | None => mret (status_json 400 (BError "not logged in"))
  | Some c =>
      if negb (truthy channelId)
      then mret (status_json 400 (BError "channelId required"))
      else
        _ ← send_files c channelId files;
        mret (json BSent)
  end).

(** What one request to [POST /send] can leave in the trace, file by file,
    and the answer that goes with it.  A file takes [sendFile] and the
    unlink, or a throwing [sendFile], [sendMessage] and the unlink; when
    [sendMessage] throws too, the unlink is the last call of the request. *)
Inductive send_run (c : Client) (channelId : scalar) :
  list UploadedFile -> list Event -> Response -> Prop :=
| send_run_done :
    send_run c channelId [] [] (json BSent)
| send_run_file f rest u evs resp :
    ev_call u = UnlinkSync (path_resolve (path f)) ->
    send_run c channelId rest evs resp ->
    send_run c channelId (f :: rest)
      (returned (SendFile c channelId (path_resolve (path f)) (originalname f))
       :: u :: evs) resp
| send_run_fallback f rest e u evs resp :
    ev_call u = UnlinkSync (path_resolve (path f)) ->
    send_run c channelId rest evs resp ->
    send_run c channelId (f :: rest)
      (threw (SendFile c channelId (path_resolve (path f)) (originalname f)) e
       :: returned (SendMessage c channelId (path_resolve (path f)) (originalname f))
       :: u :: evs) resp
| send_run_abort f rest e1 e2 u :
    ev_call u = UnlinkSync (path_resolve (path f)) ->
    send_run c channelId (f :: rest)
      [ threw (SendFile c channelId (path_resolve (path f)) (originalname f)) e1;
        threw (SendMessage c channelId (path_resolve (path f)) (originalname f)) e2;
        u ]
      (status_json 500 (BError e2)).

(** The calls [evs], in this order, are what the platform was asked, each
    with the outcome the platform gave, from the world [w] to the world
    [w'] the last of them left. *)
Inductive performed : World -> list Event -> World -> Prop :=
| performed_nil w : performed w [] w
| performed_call w k evs w' :
    performed (snd (perform k w)) evs w' ->
    performed w (event_of k (fst (perform k w)) :: evs) w'.

(** A computation is faithful when what it adds to the trace is what it
    asked of the platform, and the world it ends in is the one those calls
    left. *)
Definition faithful {R : Type} (f : Env -> R * Env) : Prop :=
  forall env,
    exists evs,
      trace (snd (f env)) = (trace env ++ evs)%list /\
      performed (world env) evs (world (snd (f env))).

(** ** Requests whose [req.body] is [undefined]

    The handlers above take the fields of a [req.body] that is an object.
    When a request carries nothing the body parsers take, body-parser 2
    leaves [req.body] undefined, and reading a field of it throws where the
    handler first does so: in the destructuring that opens [start],
    [verify] and [qr/start], after the [!client] test in [sendCode] and
    [send]. *)

Definition TypeError_destructure (property : string) : exn :=
  "TypeError: Cannot destructure property '" +:+ property +:+
  "' of 'req.body' as it is undefined.".

Definition TypeError_channelId : exn :=
  "TypeError: Cannot read properties of undefined (reading 'channelId')".

Definition without_body (r : BodyRoute) : Handler := catching (
  match r with
  | ToAuthStart | ToAuthQrStart => throw (TypeError_destructure "apiId")
  | ToAuthVerify => throw (TypeError_destructure "phone")
  | ToAuthSendCode =>
      cl ← read client;
      match cl with
      | None => mret (status_json 400 (BError "client not initialized (call /auth/start)"))
      | Some _ => throw (TypeError_destructure "phone")
      end
  | ToSend =>
      cl ← read client;
      match cl with
      | None => mret (status_json 400 (BError "not logged in"))
      | Some _ => throw TypeError_channelId
      end
  end).

(** What [send] answers after its loop. *)
Definition send_answer (r : result unit) : Response :=
  match r with
  | Ok _ => json BSent
  | Throw e => status_json 500 (BError e)
  end.

(** A handler turns the request down with a 400 and leaves everything, the
    trace of calls included, as it found it. *)
Definition rejects_untouched (h : Handler) (env : Env) : Prop :=
  exists msg, h env = (status_json 400 (BError msg), env).

End Gateway.

(** ** A scripted platform, to run the handlers on concrete requests *)

Module Scripted.

(** What the scripted library hands out when a call does not throw. *)
Record Answers : Type := {
  a_client : Client;
  a_code : option CodeResult;
  a_save : scalar;
  a_qr : QrLogin;
  a_dialogs : list Dialog
}.

Definition answer (a : Answers) (c : Call) : ret c :=
  match c return ret c with
  | NewStringSession _ => {| sid := 0 |}
  | NewTelegramClient _ _ _ => a_client a
  | SendCodeRequest _ _ | SendCode _ _ => a_code a
  | SessionSave _ => a_save a
  | QrLoginCall _ => a_qr a
  | GetDialogs _ => a_dialogs a
  | Connect _ | Disconnect _ | SignInObject _ _ _ _ | SignInPositional _ _ _
  | QrWaitRace _ | SendFile _ _ _ _ | SendMessage _ _ _ _ | UnlinkSync _ => tt
  end.

(** [Number(v)] on the values the examples pass: numbers, [null], booleans
    and strings of decimal digits. *)
Definition Number (v : scalar) : scalar :=
  match v with
  | SNum z => SNum z
  | SNull => SNum 0
  | SBool b => SNum (if b then 1 else 0)
  | SStr s =>
      match NilZero.int_of_string s with
      | Some d => SNum (Z.of_int d)
      | None => SUndefined
      end
  | SUndefined => SUndefined
  end.

(** A world without memory: [fails] says which calls throw and what, the
    answers say what the others return.  Paths are absolute, so
    [path.resolve] leaves them as they are. *)
Definition platform (fails : Call -> option exn) (a : Answers) : Platform := {|
  World := unit;
  perform := fun c w =>
    match fails c with
    | Some e => (Throw e, w)
    | None => (Ok (answer a c), w)
    end;
  js_Number := Number;
  js_Number_toString := bigint_toString;
  path_resolve := fun p => p
|}.

Definition full_client : Client := {|
  cid := 1; has_sendCodeRequest := true; has_signIn := true;
  has_qrLogin := true; has_disconnect := true
|}.

(** A client of a library version with neither [sendCodeRequest], [signIn]
    nor [qrLogin]. *)
Definition bare_client : Client := {|
  cid := 1; has_sendCodeRequest := false; has_signIn := false;
  has_qrLogin := false; has_disconnect := true
|}.

Definition a_token : list byte := Base64.of_text "foobar".

Definition some_dialogs : list Dialog :=
  [ {| d_isChannel := true;  d_id := -1001234567890123456789; d_title := "news" |};
    {| d_isChannel := false; d_id := 42; d_title := "alice" |};
    {| d_isChannel := true;  d_id := 7; d_title := "releases" |} ].

Definition answers (cl : Client) (code : option CodeResult) (save : scalar) : Answers := {|
  a_client := cl;
  a_code := code;
  a_save := save;
  a_qr := {| qid := 0; token := BufferToken a_token |};
  a_dialogs := some_dialogs
|}.

Definition no_fields : CodeResult :=
  {| phoneCodeHash := SUndefined; phone_code_hash := SUndefined; underscore := SUndefined |}.

Definition with_hash (h : string) : CodeResult :=
  {| phoneCodeHash := SUndefined; phone_code_hash := SStr h; underscore := SUndefined |}.

(** Which calls throw, scenario by scenario. *)

Definition never : Call -> option exn := fun _ => None.

Definition connection_refused (k : Call) : option exn :=
  match k with
  | Connect _ => Some "Error: connection refused"
  | _ => None
  end.

(** The constructor of [TelegramClient] throws on empty credentials. *)
Definition empty_credentials_rejected (k : Call) : option exn :=
  match k with
  | NewTelegramClient _ apiId apiHash =>
      if truthy apiId && truthy apiHash then None
      else Some "Error: Your API ID or Hash cannot be empty or undefined"
  | _ => None
  end.

Definition wrong_code (k : Call) : option exn :=
  match k with
  | SignInObject _ _ _ _ => Some "Error: PHONE_CODE_INVALID"
  | SignInPositional _ _ _ => Some "Error: PHONE_CODE_EXPIRED"
  | _ => None
  end.

Definition disconnect_fails (k : Call) : option exn :=
  match k with
  | Disconnect _ => Some "Error: Cannot send requests while disconnected"
  | _ => None
  end.

(** [sendFile] fails for the second and third upload, [sendMessage] for
    the third. *)
Definition flaky_uploads (k : Call) : option exn :=
  match k with
  | SendFile _ _ file _ =>
      if String.eqb file "/tmp/tg_uploads/b2" || String.eqb file "/tmp/tg_uploads/c3"
      then Some "Error: FILE_PARTS_INVALID" else None
  | SendMessage _ _ file _ =>
      if String.eqb file "/tmp/tg_uploads/c3"
      then Some "Error: CHAT_WRITE_FORBIDDEN" else None
  | _ => None
  end.

Definition uploads : list UploadedFile :=
  [ {| path := "/tmp/tg_uploads/a1"; originalname := "a.txt" |};
    {| path := "/tmp/tg_uploads/b2"; originalname := "b.txt" |};
    {| path := "/tmp/tg_uploads/c3"; originalname := "c.txt" |};
    {| path := "/tmp/tg_uploads/d4"; originalname := "d.txt" |} ].

(** A client without [qrLogin] that can be disconnected. *)
Definition no_qr_client : Client := {|
  cid := 1; has_sendCodeRequest := true; has_signIn := true;
  has_qrLogin := false; has_disconnect := true
|}.

(** The platforms of the scenarios. *)

Definition a_session : scalar := SStr "1BQANOTEuMTA4LjU2LjE2MQG7".

Definition cooperative : Platform :=
  platform never (answers full_client (Some (with_hash "abc")) a_session).

Definition no_alias : Platform :=
  platform never (answers full_client (Some no_fields) a_session).

Definition empty_save : Platform :=
  platform never (answers full_client (Some (with_hash "abc")) (SStr "")).

Definition bare : Platform :=
  platform never (answers bare_client (Some (with_hash "abc")) a_session).

Definition rejecting : Platform :=
  platform wrong_code (answers full_client (Some (with_hash "abc")) a_session).

Definition unreachable : Platform :=
  platform connection_refused (answers full_client (Some (with_hash "abc")) a_session).

Definition strict_constructor : Platform :=
  platform empty_credentials_rejected (answers full_client (Some (with_hash "abc")) a_session).

Definition no_qr_failing_disconnect : Platform :=
  platform disconnect_fails (answers no_qr_client (Some (with_hash "abc")) a_session).

Definition no_qr : Platform :=
  platform never (answers no_qr_client (Some (with_hash "abc")) a_session).

Definition flaky : Platform :=
  platform flaky_uploads (answers full_client (Some (with_hash "abc")) a_session).

(** The environments of the scenarios, each reached from a fresh process by
    the requests named. *)

Definition fresh (P : Platform) (w : @World P) : @Env P :=
  {| gw := initial_state; world := w; trace := [] |}.

Definition forget_trace {P : Platform} (env : @Env P) : @Env P :=
  {| gw := gw env; world := world env; trace := [] |}.

(** After [POST /auth/start {apiId: 12345, apiHash: "abc"}]. *)
Definition after_start (P : Platform) (w : @World P) : @Env P :=
  forget_trace (snd (auth_start (SNum 12345) (SStr "abc") (fresh P w))).

(** After that and [POST /auth/sendCode {phone: "+10000000000"}]. *)
Definition after_sendCode (P : Platform) (w : @World P) : @Env P :=
  forget_trace (snd (auth_sendCode (SStr "+10000000000") (after_start P w))).

(** After [POST /auth/qr/start {apiId: 12345, apiHash: "abc"}] alone. *)
Definition after_qr_start (P : Platform) (w : @World P) : @Env P :=
  forget_trace (snd (auth_qr_start (SNum 12345) (SStr "abc") (fresh P w))).

(** A process that started once and is asked to start again while the
    network is down. *)
Definition restarting : @Env unreachable :=
  @Build_Env unreachable
    (set_sessionString a_session (gw (after_start cooperative tt))) tt [].

(** A world that is the temporary directory: the paths on disk.
    [unlinkSync] removes a path that is there, fails with [ENOENT] on one
    that is not, and with [EPERM] on a protected one; every other call
    returns its scripted answer and leaves the disk alone. *)
Definition disk_perform (protected : string -> bool) (a : Answers) (k : Call)
    (disk : list string) : result (ret k) * list string :=
  match k return result (ret k) * list string with
  | UnlinkSync file =>
      if protected file
      then (Throw "Error: EPERM: operation not permitted, unlink", disk)
      else if existsb (String.eqb file) disk
      then (Ok tt, List.filter (fun p => negb (String.eqb p file)) disk)
      else (Throw "Error: ENOENT: no such file or directory, unlink", disk)
  | k' => (Ok (answer a k'), disk)
  end.

Definition on_disk (protected : string -> bool) (a : Answers) : Platform := {|
  World := list string;
  perform := disk_perform protected a;
  js_Number := Number;
  js_Number_toString := bigint_toString;
  path_resolve := fun p => p
|}.

(** The first upload cannot be unlinked. *)
Definition protected_upload : Platform :=
  on_disk (String.eqb "/tmp/tg_uploads/a1")
          (answers full_client (Some (with_hash "abc")) a_session).

Definition two_uploads : list UploadedFile :=
  [ {| path := "/tmp/tg_uploads/a1"; originalname := "a.txt" |};
    {| path := "/tmp/tg_uploads/b2"; originalname := "b.txt" |} ].

(** A started process whose two uploads multer has just staged. *)
Definition two_staged : @Env protected_upload :=
  @Build_Env protected_upload (gw (after_start cooperative tt))
    ["/tmp/tg_uploads/a1"; "/tmp/tg_uploads/b2"] [].

(** A library whose login token is a plain [Uint8Array]. *)
Definition uint8_token : Platform :=
  platform never {|
    a_client := full_client;
    a_code := Some (with_hash "abc");
    a_save := a_session;
    a_qr := {| qid := 0; token := Uint8ArrayToken a_token |};
    a_dialogs := some_dialogs
  |}.

(** A process that served [start], then [qr/start]. *)
Definition after_start_and_qr_start (P : Platform) (w : @World P) : @Env P :=
  forget_trace (snd (auth_qr_start (SNum 12345) (SStr "abc") (after_start P w))).

Definition phone : scalar := SStr "+10000000000".
Definition code : scalar := SStr "12345".
Definition channel : scalar := SStr "-1001234567890".
Definition the_qr : QrLogin := {| qid := 0; token := BufferToken a_token |}.

End Scripted.


(** ** Reading base64 back

    The inverse of [Base64.encode], as a reader of [qrData] would apply it:
    four digits give three octets, [=] marks a final group of one or two. *)

Module Base64Inverse.

Local Open Scope N_scope.

Fixpoint index_of (c : ascii) (l : list ascii) (i : N) : option N :=
  match l with
  | [] => None
  | x :: rest => if Ascii.eqb c x then Some i else index_of c rest (N.succ i)
  end.

(** The value of a digit: its position in the alphabet. *)
Definition value (c : ascii) : option N := index_of c Base64.alphabet 0.

Definition is_pad (c : ascii) : bool := Ascii.eqb c "="%char.

Fixpoint decode_digits (l : list ascii) : option (list N) :=
  match l with
  | [] => Some []
  | c1 :: c2 :: c3 :: c4 :: rest =>
      match value c1, value c2 with
      | Some d1, Some d2 =>
          let a := N.lor (N.shiftl d1 2) (N.shiftr d2 4) in
          if is_pad c3 then
            if is_pad c4 then match rest with [] => Some [a] | _ => None end
            else None
          else
            match value c3 with
            | Some d3 =>
                let b := N.lor (N.shiftl (N.land d2 15) 4) (N.shiftr d3 2) in
                if is_pad c4 then match rest with [] => Some [a; b] | _ => None end
                else
                  match value c4, decode_digits rest with
                  | Some d4, Some tail =>
                      Some (a :: b :: N.lor (N.shiftl (N.land d3 3) 6) d4 :: tail)
                  | _, _ => None
                  end
            | None => None
            end
      | _, _ => None
      end
  | _ => None
  end.

Fixpoint bytes_of (l : list N) : option (list byte) :=
  match l with
  | [] => Some []
  | n :: rest =>
      match Byte.of_N n, bytes_of rest with
      | Some b, Some bs => Some (b :: bs)
      | _, _ => None
      end
  end.

Definition decode (s : string) : option (list byte) :=
  match decode_digits (list_ascii_of_string s) with
  | Some l => bytes_of l
  | None => None
  end.


(** What the proof of the round trip enumerates: the numbers below a bound,
    the test that a digit reads back as its value and is not the padding,
    and the six-bit digits of neighbouring octets with the equations that
    put the octets together again. *)
Definition range (n : nat) : list N := map N.of_nat (seq 0 n).

Definition digit_ok (n : N) : bool :=
  match value (Base64.digit n) with
  | Some m => N.eqb m n && negb (is_pad (Base64.digit n))
  | None => false
  end.

Definition d1 (a : N) : N := N.shiftr a 2.
Definition d2 (a b : N) : N := N.lor (N.shiftl (N.land a 3) 4) (N.shiftr b 4).
Definition d3 (b c : N) : N := N.lor (N.shiftl (N.land b 15) 2) (N.shiftr c 6).
Definition d4 (c : N) : N := N.land c 63.

Definition pair_ok (x y : N) : bool :=
  (d1 x <? 64) && (d4 x <? 64) && (d2 x y <? 64) && (d3 x y <? 64) &&
  (N.shiftl (N.land x 3) 4 <? 64) && (N.shiftl (N.land x 15) 2 <? 64) &&
  (N.lor (N.shiftl (d1 x) 2) (N.shiftr (d2 x y) 4) =? x) &&
  (N.lor (N.shiftl (d1 x) 2) (N.shiftr (N.shiftl (N.land x 3) 4) 4) =? x) &&
  (N.lor (N.shiftl (N.land (d2 x y) 15) 4) (N.land y 15) =? y) &&
  (N.shiftr (d3 x y) 2 =? N.land x 15) &&
  (N.shiftr (N.shiftl (N.land x 15) 2) 2 =? N.land x 15) &&
  (N.lor (N.shiftl (N.land (d3 x y) 3) 6) (d4 y) =? y).

End Base64Inverse.

(** ** The routes *)

(** One constructor per route registered on [app], with what the handler
    reads of the request. *)
Inductive Request : Type :=
| PostAuthStart (apiId apiHash : scalar)
| PostAuthSendCode (phone : scalar)
| PostAuthVerify (phone code : scalar)
| PostAuthQrStart (apiId apiHash : scalar)
| GetAuthQrStatus
| PostAuthQrCancel
| GetChannels
| PostSend (channelId : scalar) (files : list UploadedFile).

Definition is_start (r : Request) : bool :=
  match r with
  | PostAuthStart _ _ => true
  | _ => false
  end.

Definition is_qr_start (r : Request) : bool :=
  match r with
  | PostAuthQrStart _ _ => true
  | _ => false
  end.

(** The files a trace shows handed to [sendFile], and the files it shows
    handed to [fs.unlinkSync] (whatever that call then did), in the order
    of the calls. *)
Definition sendFile_paths (evs : list Event) : list string :=
  flat_map (fun ev => match ev_call ev with
                      | SendFile _ _ file _ => [file]
                      | _ => []
                      end) evs.

Definition unlinkSync_paths (evs : list Event) : list string :=
  flat_map (fun ev => match ev_call ev with
                      | UnlinkSync file => [file]
                      | _ => []
                      end) evs.

Section Router.

Context {P : Platform}.

(** The application: each request goes to the handler of its route. *)
Definition serve (r : Request) : Handler :=
  match r with
  | PostAuthStart apiId apiHash => auth_start apiId apiHash
  | PostAuthSendCode phone => auth_sendCode phone
  | PostAuthVerify phone code => auth_verify phone code
  | PostAuthQrStart apiId apiHash => auth_qr_start apiId apiHash
  | GetAuthQrStatus => auth_qr_status
  | PostAuthQrCancel => auth_qr_cancel
  | GetChannels => channels
  | PostSend channelId files => send channelId files
  end.

(** Requests served one after the other by the same process. *)
Fixpoint serve_all (rs : list Request) (env : Env) : list Response * Env :=
  match rs with
  | [] => ([], env)
  | r :: rest =>
      let (resp, env1) := serve r env in
      let (resps, env2) := serve_all rest env1 in
      (resp :: resps, env2)
  end.

(** A request as the handler finds it: with a [req.body] that is an object
    (the JSON body-parser parsed, the fields multer collected, or the [{}]
    body-parser 1 leaves when there is nothing to parse), or with a
    [req.body] that is [undefined]. *)
Inductive Incoming : Type :=
| Parsed (r : Request)
| Unparsed (r : BodyRoute).

Definition receive (i : Incoming) : Handler :=
  match i with
  | Parsed r => serve r
  | Unparsed r => without_body r
  end.

Fixpoint receive_all (reqs : list Incoming) (env : Env) : list Response * Env :=
  match reqs with
  | [] => ([], env)
  | i :: rest =>
      let (resp, env1) := receive i env in
      let (resps, env2) := receive_all rest env1 in
      (resp :: resps, env2)
  end.

End Router.

(** The files multer staged for a request before its handler ran. *)
Definition uploads_of (i : Incoming) : list UploadedFile :=
  match i with
  | Parsed (PostSend _ files) => files
  | _ => []
  end.

(** A [start] or [qr/start] that carries a body. *)
Definition starts (i : Incoming) : bool :=
  match i with
  | Parsed r => is_start r || is_qr_start r
  | Unparsed _ => false
  end.

(** The answers a process gives while it has no client and no QR attempt
    and is sent neither [start] nor [qr/start] with a body. *)
Definition idle_answer (resp : Response) : Prop :=
  status resp = 400 \/
  (exists property, resp = status_json 500 (BError (TypeError_destructure property))) \/
  resp = json (BLoggedIn false) \/
  resp = json BOk.

(** ** Request sequences for the scripted platform *)

Module Traffic.

Import Scripted.

Definition other_phone : scalar := SStr "+19999999999".

(** What a client that skipped [start] might send, with and without a
    body, and without uploads. *)
Definition before_start : list Incoming :=
  [ Parsed GetChannels; Parsed (PostAuthSendCode phone); Unparsed ToAuthSendCode;
    Parsed (PostAuthVerify phone code); Unparsed ToAuthVerify; Unparsed ToAuthStart;
    Unparsed ToAuthQrStart; Parsed GetAuthQrStatus; Parsed PostAuthQrCancel;
    Parsed (PostSend channel []); Unparsed ToSend ].

(** After a [start]: a phone login, a listing, an upload, one more code
    request for another phone. *)
Definition after_login : list Request :=
  [ PostAuthSendCode phone; PostAuthVerify phone code; GetChannels;
    PostSend channel uploads; PostAuthQrCancel; PostAuthSendCode other_phone ].

(** The process after a successful phone login. *)
Definition logged_in : @Env cooperative :=
  forget_trace (snd (auth_verify phone code (after_sendCode cooperative tt))).

End Traffic.

(** * Properties *)

Section Properties.

Context {P : Platform}.

Local Open Scope list_scope.

Implicit Types (env : Env) (c : Client) (e : exn).

Ltac unfold_monad :=
  unfold catching, try_catch, try_finally, read, modify, throw,
         mbind, M_bind, mret, M_ret in *.

Ltac step_call :=
  match goal with
  | |- context [perform ?c ?w] =>
      let r := fresh "r" in
      let w' := fresh "w" in
      let E := fresh "E" in
      destruct (perform c w) as [r w'] eqn:E; try destruct r; cbn in *
  end.

(** ** Calls and [createClient] never touch the module-level variables *)

Lemma call_eq (k : Call) env :
  call k env =
    (fst (perform k (world env)),
     {| gw := gw env; world := snd (perform k (world env));
        trace := trace env ++ [event_of k (fst (perform k (world env)))] |}).
Proof. unfold call. now destruct (perform k (world env)). Qed.

Lemma call_gw (k : Call) env r env1 :
  call k env = (r, env1) -> gw env1 = gw env.
Proof. rewrite call_eq. now intros [= _ <-]. Qed.

Lemma createClient_with_gw apiId apiHash session g env :
  createClient apiId apiHash session (with_gw g env) =
    (fst (createClient apiId apiHash session env),
     with_gw g (snd (createClient apiId apiHash session env))).
Proof.
  unfold createClient, call. unfold_monad. cbn.
  repeat (step_call; try reflexivity).
Qed.

Lemma createClient_gw apiId apiHash session env :
  gw (snd (createClient apiId apiHash session env)) = gw env.
Proof.
  unfold createClient, call. unfold_monad. cbn.
  repeat (step_call; try reflexivity).
Qed.

(** ** Requests before any client exists *)

(** Without a client, each route says so in its own words and calls
    nothing: [sendCode] and [send] test [client] before they read the body,
    so they answer their 400 even when [req.body] is [undefined];
    [channels] reads no body; [verify] answers its 400 when the body is an
    object, but it destructures the body before it tests [client], so
    without a body its answer is the 500 of that [TypeError]. *)
Theorem no_client_answers env phone code channelId files :
  client (gw env) = None ->
  auth_sendCode phone env =
    (status_json 400 (BError "client not initialized (call /auth/start)"), env) /\
  without_body ToAuthSendCode env =
    (status_json 400 (BError "client not initialized (call /auth/start)"), env) /\
  auth_verify phone code env =
    (status_json 400 (BError "client not initialized"), env) /\
  without_body ToAuthVerify env =
    (status_json 500 (BError (TypeError_destructure "phone")), env) /\
  channels env = (status_json 400 (BError "not logged in"), env) /\
  send channelId files env = (status_json 400 (BError "not logged in"), env) /\
  without_body ToSend env = (status_json 400 (BError "not logged in"), env).
Proof.
  intros H. unfold auth_sendCode, auth_verify, channels, send, without_body.
  unfold_monad. rewrite H. cbn. repeat split.
Qed.

(** ** [start] assigns the credentials before it connects *)

(** C10: when both fields are truthy and [createClient] throws, the answer
    is the 500 carrying what was thrown, [storedApiId] and [storedApiHash]
    already hold the request's values, and [client] and [sessionString]
    are the ones from before the request. *)
Theorem start_failure_keeps_new_credentials env apiId apiHash e :
  truthy apiId = true ->
  truthy apiHash = true ->
  fst (createClient apiId apiHash (sessionString (gw env)) env) = Throw e ->
  fst (auth_start apiId apiHash env) = status_json 500 (BError e) /\
  storedApiId (gw (snd (auth_start apiId apiHash env))) = js_Number apiId /\
  storedApiHash (gw (snd (auth_start apiId apiHash env))) = apiHash /\
  client (gw (snd (auth_start apiId apiHash env))) = client (gw env) /\
  sessionString (gw (snd (auth_start apiId apiHash env))) = sessionString (gw env).
Proof.
  intros Ha Hh Hc. unfold auth_start. rewrite Ha, Hh. unfold_monad. cbn.
  change (with_gw ?g (with_gw ?g' env)) with (with_gw g env).
  rewrite createClient_with_gw, Hc. cbn. auto.
Qed.

(** ** The dictionary [phoneState] *)

Lemma get_set_same (o : JS.object) (k : string) (v : scalar) :
  k <> "__proto__" -> JS.get (JS.set o k v) k = VScalar v.
Proof.
  intros Hk. apply String.eqb_neq in Hk.
  unfold JS.get, JS.set. destruct (own o !! k) eqn:Ho; cbn.
  - now rewrite lookup_insert_eq.
  - rewrite Hk, andb_false_r. cbn. now rewrite lookup_insert_eq.
Qed.

Lemma get_set_null_falsy (o : JS.object) (k : string) :
  truthy_val (JS.get (JS.set o k SNull) k) = false.
Proof.
  unfold JS.get, JS.set. destruct (own o !! k) eqn:Ho; cbn.
  - now rewrite lookup_insert_eq.
  - destruct (proto_null o) eqn:Hp; cbn.
    + now rewrite lookup_insert_eq.
    + destruct (String.eqb k "__proto__"); cbn.
      * now rewrite Ho.
      * now rewrite lookup_insert_eq.
Qed.

Lemma pick_hash_find (r : CodeResult) :
  pick_hash r =
    default SNull (find truthy [phoneCodeHash r; phone_code_hash r; underscore r]).
Proof.
  unfold pick_hash, or_else. cbn.
  destruct (truthy (phoneCodeHash r)) eqn:H1,
           (truthy (phone_code_hash r)) eqn:H2,
           (truthy (underscore r)) eqn:H3;
    cbn; rewrite ?H1, ?H2, ?H3; reflexivity.
Qed.

(** ** [sendCode] *)

(** C1, as the code has it: once the code request has resolved to an
    object, [sendCode] answers [{ok:true}] whatever the object holds, and
    assigns to [phoneState[phone]] the first truthy one of
    [phoneCodeHash], [phone_code_hash] and [_], or [null] when none is.
    For every key but [__proto__] the assignment replaces what the phone
    had; and a [null] is read back falsy, so a later [verify] turns the
    phone down. *)
Theorem sendCode_records_first_truthy_alias env c phone r env1 :
  client (gw env) = Some c ->
  truthy phone = true ->
  code_request c phone env = (Ok (Some r), env1) ->
  let key := to_property_key phone in
  let stored :=
    default SNull (find truthy [phoneCodeHash r; phone_code_hash r; underscore r]) in
  let recorded := JS.set (phoneState (gw env)) key stored in
  auth_sendCode phone env =
    (json BOk, with_gw (set_phoneState recorded (gw env)) env1) /\
  (key <> "__proto__" -> JS.get recorded key = VScalar stored) /\
  (find truthy [phoneCodeHash r; phone_code_hash r; underscore r] = None ->
   truthy_val (JS.get recorded key) = false).
Proof.
  intros Hc Hp Hr key stored recorded.
  assert (Hg : gw env1 = gw env).
  { unfold code_request in Hr. destruct (has_sendCodeRequest c).
    - exact (call_gw (SendCodeRequest c phone) _ _ _ Hr).
    - exact (call_gw (SendCode c phone) _ _ _ Hr). }
  split; [| split].
  - unfold auth_sendCode. unfold_monad. rewrite Hc. cbn. rewrite Hp. cbn.
    rewrite Hr. cbn. rewrite Hg, pick_hash_find. reflexivity.
  - intros Hk. now apply get_set_same.
  - intros Hn. subst recorded stored. rewrite Hn. cbn. apply get_set_null_falsy.
Qed.

(** ** [verify] *)

(** A phone whose entry reads back falsy is turned down before any call. *)
Lemma verify_without_hash env phone code :
  truthy_val (JS.get (phoneState (gw env)) (to_property_key phone)) = false ->
  rejects_untouched (auth_verify phone code) env.
Proof.
  intros H. unfold rejects_untouched, auth_verify. unfold_monad.
  destruct (client (gw env)); cbn; [| eexists; reflexivity].
  destruct (negb (truthy phone) || negb (truthy code)); cbn; [eexists; reflexivity |].
  rewrite H. cbn. eexists; reflexivity.
Qed.

(** C4, as the code has it: past its three checks, [verify] looks at
    [typeof client.signIn].  If it is a function, the object-shaped call
    comes first and, only if it throws, the positional call follows, once;
    when that one throws too, nothing else is called and the answer is the
    500 carrying what it threw; otherwise the one remaining call saves the
    session.  If it is not a function, no sign-in reaches the library: the
    positional call expression throws a [TypeError], and that is the 500. *)
Theorem verify_sign_in_attempts env c phone code :
  client (gw env) = Some c ->
  truthy phone = true ->
  truthy code = true ->
  truthy_val (JS.get (phoneState (gw env)) (to_property_key phone)) = true ->
  let object_shape :=
    SignInObject c phone code (JS.get (phoneState (gw env)) (to_property_key phone)) in
  let positional := SignInPositional c phone code in
  let resp := fst (auth_verify phone code env) in
  let env' := snd (auth_verify phone code env) in
  exists evs, trace env' = trace env ++ evs /\
    if has_signIn c then
      (exists save, evs = [returned object_shape; save] /\ ev_call save = SessionSave c) \/
      (exists e1 save, evs = [threw object_shape e1; returned positional; save] /\
                       ev_call save = SessionSave c) \/
      (exists e1 e2, evs = [threw object_shape e1; threw positional e2] /\
                     resp = status_json 500 (BError e2))
    else
      evs = [] /\ resp = status_json 500 (BError TypeError_signIn).
Proof.
  intros Hc Hp Hk Hh. cbv zeta. unfold auth_verify, call. unfold_monad.
  rewrite Hc. cbn. rewrite Hp, Hk. cbn. rewrite Hh. cbn.
  destruct (has_signIn c); cbn.
  - repeat step_call; rewrite <- ?app_assoc; cbn;
      eexists; (split; [reflexivity |]); eauto 8.
  - exists []. now rewrite app_nil_r.
Qed.

(** C5, as the code has it: an answer other than 200 leaves
    [sessionString] as it was; a 200 comes right after [session.save()]
    returned some [s], and then [sessionString] is [s] and the body carries
    the same [s].  Nothing checks that [s] is non-empty. *)
Theorem verify_session_token env phone code :
  let resp := fst (auth_verify phone code env) in
  let env' := snd (auth_verify phone code env) in
  (status resp <> 200 -> sessionString (gw env') = sessionString (gw env)) /\
  (status resp = 200 ->
   exists c s evs w,
     client (gw env) = Some c /\
     trace env' = trace env ++ evs ++ [returned (SessionSave c)] /\
     fst (perform (SessionSave c) w) = Ok s /\
     sessionString (gw env') = s /\
     resp = json (BOkSession s)).
Proof.
  cbv zeta. unfold auth_verify, call. unfold_monad.
  destruct (client (gw env)) as [c|] eqn:Hc; cbn; [| split; [reflexivity | discriminate]].
  destruct (negb (truthy phone) || negb (truthy code)); cbn;
    [split; [reflexivity | discriminate] |].
  destruct (negb (truthy_val _)); cbn; [split; [reflexivity | discriminate] |].
  destruct (has_signIn c); cbn; repeat step_call;
    (split; [try reflexivity; intros []; reflexivity | try discriminate; intros _]).
  all: rewrite <- ?app_assoc; cbn.
  all: match goal with
       | E : perform (SessionSave ?c0) ?w = (Ok ?s, _) |- _ =>
           exists c0, s; eexists; exists w; rewrite E;
           repeat split; try reflexivity
       end.
  all: match goal with
       | |- _ ++ ?l = _ ++ _ ++ [_] =>
           first [ instantiate (1 := [_]); reflexivity
                 | instantiate (1 := [_; _]); reflexivity ]
       end.
Qed.

(** ** QR login *)

Lemma ensure_client_present env c :
  client (gw env) = Some c -> ensure_client env = (Ok c, env).
Proof. intros H. unfold ensure_client. unfold_monad. now rewrite H. Qed.

Lemma ensure_client_absent env :
  client (gw env) = None ->
  ensure_client env =
    match createClient (storedApiId (gw env)) (storedApiHash (gw env)) (SStr "") env with
    | (Ok c, env1) => (Ok c, with_gw (set_client c (gw env)) env1)
    | (Throw e, env1) => (Throw e, env1)
    end.
Proof.
  intros H. unfold ensure_client. unfold_monad. rewrite H. cbn.
  pose proof (createClient_gw (storedApiId (gw env)) (storedApiHash (gw env)) (SStr "") env) as G.
  destruct (createClient _ _ _ env) as [[cl|e] env1]; cbn in *; now rewrite ?G.
Qed.

Lemma ensure_client_qrWaiter env r env1 :
  ensure_client env = (r, env1) -> qrWaiter (gw env1) = qrWaiter (gw env).
Proof.
  destruct (client (gw env)) as [c|] eqn:H.
  - rewrite (ensure_client_present _ _ H). now intros [= _ <-].
  - rewrite (ensure_client_absent _ H).
    pose proof (createClient_gw (storedApiId (gw env)) (storedApiHash (gw env)) (SStr "") env) as G.
    destruct (createClient _ _ _ env) as [[cl|e] env2]; cbn in *; intros [= _ <-]; cbn;
      now rewrite ?G.
Qed.

Lemma ensure_client_sets env c env1 :
  ensure_client env = (Ok c, env1) -> client (gw env1) = Some c.
Proof.
  destruct (client (gw env)) as [c0|] eqn:H.
  - rewrite (ensure_client_present _ _ H). now intros [= <- <-].
  - rewrite (ensure_client_absent _ H).
    destruct (createClient _ _ _ env) as [[cl|e] env2]; [| discriminate].
    now intros [= <- <-].
Qed.

(** Without a pending attempt [qr/status] answers [{loggedIn:false}] and
    calls nothing; [qr/cancel] drops the attempt, so a status request after
    it answers the same. *)
Lemma qr_status_idle env :
  qrWaiter (gw env) = None -> auth_qr_status env = (json (BLoggedIn false), env).
Proof. intros H. unfold auth_qr_status. unfold_monad. now rewrite H. Qed.

Lemma qr_cancel_then_status env :
  fst (auth_qr_cancel env) = json BOk /\
  qrWaiter (gw (snd (auth_qr_cancel env))) = None /\
  auth_qr_status (snd (auth_qr_cancel env)) =
    (json (BLoggedIn false), snd (auth_qr_cancel env)).
Proof.
  split; [reflexivity |]. split; [reflexivity |]. now apply qr_status_idle.
Qed.

(** With both fields truthy and the temporary client created, a client
    without [qrLogin] gets the 501 once the optional [disconnect] has
    returned (or when the client has none); a client with [qrLogin] whose
    call resolves gets [{ok:true}] with, behind the data-URL prefix, what
    [toString('base64')] makes of the token (base64 for a [Buffer], the
    octets in decimal for a plain [Uint8Array]), and the login object
    becomes [qrWaiter]. *)
Theorem qr_start_outcomes env apiId apiHash tmpClient env1 :
  truthy apiId = true ->
  truthy apiHash = true ->
  createClient apiId apiHash (SStr "") env = (Ok tmpClient, env1) ->
  let unsupported :=
    status_json 501 (BError "QR login not supported by library version on server") in
  (has_qrLogin tmpClient = false -> has_disconnect tmpClient = false ->
   auth_qr_start apiId apiHash env = (unsupported, env1)) /\
  (has_qrLogin tmpClient = false -> has_disconnect tmpClient = true ->
   forall env2, call (Disconnect tmpClient) env1 = (Ok tt, env2) ->
   auth_qr_start apiId apiHash env = (unsupported, env2)) /\
  (has_qrLogin tmpClient = true ->
   forall qr env2, call (QrLoginCall tmpClient) env1 = (Ok qr, env2) ->
   auth_qr_start apiId apiHash env =
     (json (BOkQr ("data:text/plain;base64," +:+ token_toString_base64 (token qr))),
      with_gw (set_qrWaiter (Some qr) (gw env)) env2)).
Proof.
  intros Ha Hh Hc unsupported.
  assert (G : gw env1 = gw env).
  { pose proof (createClient_gw apiId apiHash (SStr "") env) as G. now rewrite Hc in G. }
  unfold auth_qr_start. unfold_monad. rewrite Ha, Hh. cbn. rewrite Hc. cbn.
  repeat split.
  - intros -> ->. reflexivity.
  - intros -> -> env2 Hd. cbn. now rewrite Hd.
  - intros -> qr env2 Hq. cbn. rewrite Hq. cbn.
    rewrite (call_gw (QrLoginCall tmpClient) _ _ _ Hq), G. reflexivity.
Qed.

Lemma qr_status_eq env q :
  qrWaiter (gw env) = Some q ->
  auth_qr_status env =
    match call (QrWaitRace q) env with
    | (Throw _, env1) => (json (BLoggedIn false), env1)
    | (Ok _, env1) =>
        match ensure_client env1 with
        | (Throw _, env2) => (json (BLoggedIn false), env2)
        | (Ok c, env2) =>
            match call (SessionSave c) env2 with
            | (Throw _, env3) => (json (BLoggedIn false), env3)
            | (Ok s, env3) =>
                (json (BLoggedIn true), with_gw (set_sessionString s (gw env3)) env3)
            end
        end
    end.
Proof.
  intros Hq. unfold auth_qr_status. unfold_monad. rewrite Hq. cbn.
  destruct (call (QrWaitRace q) env) as [[[]|e] env1]; [| reflexivity].
  destruct (ensure_client env1) as [[c|e] env2]; [| reflexivity].
  now destruct (call (SessionSave c) env2) as [[s|e] env3].
Qed.

(** While an attempt is pending, [qr/status]
    always answers [{loggedIn: b}] and leaves [qrWaiter] alone.  [b] is
    [false] when the bounded wait throws (time-out included), and also when
    the wait returns but creating the main client or saving its session
    throws.  [b] is [true] when all three succeed; then [client] is the
    main client (the one already there, else one created from
    [storedApiId], [storedApiHash] and an empty session) and
    [sessionString] is what that client's [session.save()] returned. *)
Theorem qr_status_pending env q :
  qrWaiter (gw env) = Some q ->
  let resp := fst (auth_qr_status env) in
  let env' := snd (auth_qr_status env) in
  qrWaiter (gw env') = Some q /\
  (exists b, resp = json (BLoggedIn b)) /\
  (forall e env1, call (QrWaitRace q) env = (Throw e, env1) ->
     resp = json (BLoggedIn false) /\ env' = env1) /\
  (forall env1, call (QrWaitRace q) env = (Ok tt, env1) ->
     (forall c0, client (gw env) = Some c0 -> ensure_client env1 = (Ok c0, env1)) /\
     (client (gw env) = None ->
      ensure_client env1 =
        match createClient (storedApiId (gw env)) (storedApiHash (gw env)) (SStr "") env1 with
        | (Ok c, env2) => (Ok c, with_gw (set_client c (gw env)) env2)
        | (Throw e, env2) => (Throw e, env2)
        end) /\
     (forall e env2, ensure_client env1 = (Throw e, env2) ->
        resp = json (BLoggedIn false) /\ env' = env2) /\
     (forall c env2, ensure_client env1 = (Ok c, env2) ->
        client (gw env2) = Some c /\
        (forall e env3, call (SessionSave c) env2 = (Throw e, env3) ->
           resp = json (BLoggedIn false) /\ env' = env3) /\
        (forall s env3, call (SessionSave c) env2 = (Ok s, env3) ->
           resp = json (BLoggedIn true) /\
           env' = with_gw (set_sessionString s (gw env2)) env3))).
Proof.
  intros Hq resp env'. subst resp env'. rewrite (qr_status_eq _ _ Hq).
  destruct (call (QrWaitRace q) env) as [[[]|e] env1] eqn:Hw;
    pose proof (call_gw (QrWaitRace q) _ _ _ Hw) as G; cbn.
  2:{ split; [now rewrite G |]. split; [eauto |].
      split; [now intros ? ? [= _ <-] | discriminate]. }
  assert (Hpresent : forall c0, client (gw env) = Some c0 ->
                               ensure_client env1 = (Ok c0, env1)).
  { intros c0 H0. apply ensure_client_present. now rewrite G. }
  assert (Habsent : client (gw env) = None ->
            ensure_client env1 =
              match createClient (storedApiId (gw env)) (storedApiHash (gw env))
                                 (SStr "") env1 with
              | (Ok c, env2) => (Ok c, with_gw (set_client c (gw env)) env2)
              | (Throw e, env2) => (Throw e, env2)
              end).
  { intros H0. rewrite <- G. apply ensure_client_absent. now rewrite G. }
  destruct (ensure_client env1) as [[c|e] env2] eqn:He;
    pose proof (ensure_client_qrWaiter _ _ _ He) as Q; cbn.
  2:{ split; [now rewrite Q, G |]. split; [eauto |]. split; [discriminate |].
      intros ? [= <-]. rewrite He. repeat split; auto; intros; congruence. }
  pose proof (ensure_client_sets _ _ _ He) as S.
  destruct (call (SessionSave c) env2) as [[s|e] env3] eqn:Hs;
    pose proof (call_gw (SessionSave c) _ _ _ Hs) as G3; cbn.
  - split; [now rewrite G3, Q, G |]. split; [eauto |]. split; [discriminate |].
    intros ? [= <-]. rewrite He.
    split; [auto |]. split; [auto |]. split; [discriminate |].
    intros ? ? [= <- <-]. split; [exact S |]. rewrite Hs.
    split; [discriminate |]. intros ? ? [= <- <-]. now rewrite G3.
  - split; [now rewrite G3, Q, G |]. split; [eauto |]. split; [discriminate |].
    intros ? [= <-]. rewrite He.
    split; [auto |]. split; [auto |]. split; [discriminate |].
    intros ? ? [= <- <-]. split; [exact S |]. rewrite Hs.
    split; [| discriminate]. now intros ? ? [= _ <-].
Qed.

(** ** [channels] *)

Lemma bigint_toString_parses (z : Z) :
  option_map Z.of_int (NilZero.int_of_string (bigint_toString z)) = Some z.
Proof.
  unfold bigint_toString. rewrite NilZero.isi.
  - cbn. now rewrite DecimalZ.of_to.
  - destruct z; cbn; try discriminate.
    intros [= H]. now apply Unsigned.to_uint_nonnil in H.
  - destruct z; cbn; try discriminate.
    intros [= H]. now apply Unsigned.to_uint_nonnil in H.
Qed.

Lemma filter_sublist {A : Type} (f : A -> bool) (l : list A) :
  sublist (List.filter f l) l.
Proof.
  induction l as [|x l IH]; cbn; [constructor |].
  destruct (f x); now constructor.
Qed.

(** C9: with a client and a resolved [getDialogs], the answer is the list
    of the dialogs whose channel flag is set, in the order the library gave
    them, each as its identifier in decimal and its title.  The kept
    dialogs are a sub-sequence of the library's, they are exactly the
    flagged ones, and parsing an identifier string as a decimal integer
    gives the identifier back. *)
Theorem channels_lists_channel_dialogs env c (dialogs : list Dialog) env1 :
  client (gw env) = Some c ->
  call (GetDialogs c) env = (Ok dialogs, env1) ->
  let kept := List.filter d_isChannel dialogs in
  channels env =
    (json (BChannels
       (map (fun d => {| ch_id := bigint_toString (d_id d); ch_title := d_title d |}) kept)),
     env1) /\
  sublist kept dialogs /\
  (forall d, In d kept <-> In d dialogs /\ d_isChannel d = true) /\
  (forall d, In d kept ->
     option_map Z.of_int (NilZero.int_of_string (bigint_toString (d_id d))) = Some (d_id d)).
Proof.
  intros Hc Hd kept. split; [| split; [| split]].
  - unfold channels. unfold_monad. rewrite Hc. cbn. now rewrite Hd.
  - apply filter_sublist.
  - intros d. apply filter_In.
  - intros d _. apply bigint_toString_parses.
Qed.

(** ** The trace is what the platform was asked *)

Lemma performed_app w evs1 w1 evs2 w2 :
  performed w evs1 w1 -> performed w1 evs2 w2 -> performed w (evs1 ++ evs2) w2.
Proof. induction 1; cbn; [auto |]. intros H2. constructor. auto. Qed.

Lemma faithful_ret {A : Type} (a : A) : faithful (mret a : M A).
Proof. intros env. exists []. cbn. rewrite app_nil_r. split; [reflexivity | constructor]. Qed.

Lemma faithful_throw {A : Type} e : faithful (throw e : M A).
Proof. intros env. exists []. cbn. rewrite app_nil_r. split; [reflexivity | constructor]. Qed.

Lemma faithful_read {A : Type} (f : State -> A) : faithful (read f).
Proof. intros env. exists []. cbn. rewrite app_nil_r. split; [reflexivity | constructor]. Qed.

Lemma faithful_modify (f : State -> State) : faithful (modify f).
Proof. intros env. exists []. cbn. rewrite app_nil_r. split; [reflexivity | constructor]. Qed.

Lemma faithful_call (k : Call) : faithful (call k).
Proof.
  intros env. exists [event_of k (fst (perform k (world env)))].
  rewrite call_eq. cbn. split; [reflexivity |]. constructor. constructor.
Qed.

Lemma faithful_bind {A B : Type} (m : M A) (k : A -> M B) :
  faithful m -> (forall a, faithful (k a)) -> faithful (m ≫= k).
Proof.
  intros Hm Hk env. destruct (Hm env) as (evs1 & Ht1 & Hp1).
  unfold mbind, M_bind. destruct (m env) as [[a|e] env1]; cbn in *.
  - destruct (Hk a env1) as (evs2 & Ht2 & Hp2). exists (evs1 ++ evs2).
    rewrite Ht2, Ht1, app_assoc. split; [reflexivity |]. eapply performed_app; eauto.
  - exists evs1. auto.
Qed.

Lemma faithful_try_catch {A : Type} (m : M A) (h : exn -> M A) :
  faithful m -> (forall e, faithful (h e)) -> faithful (try_catch m h).
Proof.
  intros Hm Hh env. destruct (Hm env) as (evs1 & Ht1 & Hp1).
  unfold try_catch. destruct (m env) as [[a|e] env1]; cbn in *.
  - exists evs1. auto.
  - destruct (Hh e env1) as (evs2 & Ht2 & Hp2). exists (evs1 ++ evs2).
    rewrite Ht2, Ht1, app_assoc. split; [reflexivity |]. eapply performed_app; eauto.
Qed.

Lemma faithful_try_finally {A : Type} (m : M A) (f : M unit) :
  faithful m -> faithful f -> faithful (try_finally m f).
Proof.
  intros Hm Hf env. destruct (Hm env) as (evs1 & Ht1 & Hp1).
  unfold try_finally. destruct (m env) as [r env1]; cbn in *.
  destruct (Hf env1) as (evs2 & Ht2 & Hp2).
  destruct (f env1) as [[[]|e] env2]; cbn in *;
    exists (evs1 ++ evs2); rewrite Ht2, Ht1, app_assoc;
    (split; [reflexivity |]); eapply performed_app; eauto.
Qed.

Lemma faithful_catching (m : M Response) : faithful m -> faithful (catching m).
Proof.
  intros Hm env. destruct (Hm env) as (evs & Ht & Hp).
  unfold catching. destruct (m env) as [[r|e] env1]; cbn in *; eauto.
Qed.

Ltac faithful_step :=
  first
    [ apply faithful_catching
    | apply faithful_bind; [| intros ?]
    | apply faithful_try_catch; [| intros ?]
    | apply faithful_try_finally
    | match goal with
      | |- faithful (call ?k) => exact (faithful_call k)
      end
    | apply faithful_ret
    | apply faithful_throw
    | apply faithful_read
    | apply faithful_modify
    | match goal with
      | |- faithful (if ?b then _ else _) => destruct b
      | |- faithful (match ?x with _ => _ end) => destruct x
      end ].

Lemma createClient_faithful apiId apiHash session :
  faithful (createClient apiId apiHash session).
Proof. unfold createClient. repeat faithful_step. Qed.

Lemma send_files_faithful c channelId files : faithful (send_files c channelId files).
Proof.
  induction files as [|f rest IH]; cbn [send_files]; [apply faithful_ret |].
  apply faithful_bind; [| intros _; exact IH]. repeat faithful_step.
Qed.

(** ** [send] *)

Lemma send_files_run c channelId files :
  forall env,
  exists evs,
    trace (snd (send_files c channelId files env)) = trace env ++ evs /\
    gw (snd (send_files c channelId files env)) = gw env /\
    send_run c channelId files evs (send_answer (fst (send_files c channelId files env))).
Proof.
  induction files as [|f rest IH]; intros env.
  - exists []. cbn. rewrite app_nil_r. repeat split. constructor.
  - cbn [send_files]. unfold call. unfold_monad. cbn.
    repeat step_call;
      try (match goal with
           | |- context [send_files c channelId rest ?env0] =>
               destruct (IH env0) as (evs & Ht & Hg & Hr); cbn in Ht, Hg
           end;
           eexists; rewrite Ht, Hg;
           (split; [rewrite <- !app_assoc; reflexivity |]); (split; [reflexivity |]);
           (eapply send_run_file + eapply send_run_fallback); [reflexivity | exact Hr]);
      try (eexists;
           (split; [rewrite <- !app_assoc; reflexivity |]); (split; [reflexivity |]);
           now eapply send_run_abort).
Qed.

Lemma send_run_abort_shape c channelId files evs resp :
  send_run c channelId files evs resp ->
  resp = json BSent \/
  exists pre f post evs_pre e1 e2 u,
    files = pre ++ f :: post /\
    send_run c channelId pre evs_pre (json BSent) /\
    evs = evs_pre ++
          [ threw (SendFile c channelId (path_resolve (path f)) (originalname f)) e1;
            threw (SendMessage c channelId (path_resolve (path f)) (originalname f)) e2;
            u ] /\
    ev_call u = UnlinkSync (path_resolve (path f)) /\
    resp = status_json 500 (BError e2).
Proof.
  induction 1 as [| f rest u evs resp Hu Hrun IH | f rest e u evs resp Hu Hrun IH
                  | f rest e1 e2 u Hu].
  - now left.
  - destruct IH as [-> | (pre & g & post & evs_pre & e1 & e2 & v & -> & Hpre & -> & Hv & ->)];
      [now left | right].
    exists (f :: pre), g, post. eexists. exists e1, e2, v.
    split; [reflexivity |]. split; [eapply send_run_file; [exact Hu | exact Hpre] |].
    now repeat split.
  - destruct IH as [-> | (pre & g & post & evs_pre & e1 & e2 & v & -> & Hpre & -> & Hv & ->)];
      [now left | right].
    exists (f :: pre), g, post. eexists. exists e1, e2, v.
    split; [reflexivity |]. split; [eapply send_run_fallback; [exact Hu | exact Hpre] |].
    now repeat split.
  - right. exists [], f, rest, [], e1, e2, u. repeat split; auto. constructor.
Qed.

(** C3, as the code has it: with a client and a truthy [channelId], the
    calls of one [send] follow the files in order, and they are what the
    platform was really asked.  Every file that is reached ends with a call
    of [fs.unlinkSync] on its temporary path, whether [sendFile] returned,
    the fallback [sendMessage] returned, or both threw; whether that unlink
    returns or throws changes nothing of what follows.  When both sends
    threw for a file, its unlink is the last call of the request: the files
    after it get no call at all, and the answer is the 500 carrying what
    [sendMessage] threw.  Otherwise the answer is [{status:"sent"}]. *)
Theorem send_cleans_up_and_stops_at_failure env c channelId files :
  client (gw env) = Some c ->
  truthy channelId = true ->
  let resp := fst (send channelId files env) in
  let env' := snd (send channelId files env) in
  exists evs,
    trace env' = trace env ++ evs /\
    performed (world env) evs (world env') /\
    gw env' = gw env /\
    send_run c channelId files evs resp /\
    (resp = json BSent \/
     exists pre f post evs_pre e1 e2 u,
       files = pre ++ f :: post /\
       send_run c channelId pre evs_pre (json BSent) /\
       evs = evs_pre ++
             [ threw (SendFile c channelId (path_resolve (path f)) (originalname f)) e1;
               threw (SendMessage c channelId (path_resolve (path f)) (originalname f)) e2;
               u ] /\
       ev_call u = UnlinkSync (path_resolve (path f)) /\
       resp = status_json 500 (BError e2)).
Proof.
  intros Hc Hch. cbv zeta.
  destruct (send_files_run c channelId files env) as (evs & Ht & Hg & Hr).
  destruct (send_files_faithful c channelId files env) as (evs' & Ht' & Hp).
  assert (evs' = evs) as -> by (rewrite Ht in Ht'; exact (eq_sym (app_inv_head _ _ _ Ht'))).
  assert (E : send channelId files env =
              (send_answer (fst (send_files c channelId files env)),
               snd (send_files c channelId files env))).
  { unfold send. unfold_monad. rewrite Hc. cbn. rewrite Hch. cbn.
    now destruct (send_files c channelId files env) as [[[]|e] env1]. }
  rewrite E. cbn. exists evs. repeat split; auto.
  eapply send_run_abort_shape, Hr.
Qed.

End Properties.

(** * The handlers on concrete requests *)

Section Scenarios.

Import Scripted.

Local Open Scope list_scope.

(** ** Base64 on the test vectors of RFC 4648 *)

Example base64_vectors :
  map (fun t => Base64.encode (Base64.of_text t))
      [""; "f"; "fo"; "foo"; "foob"; "fooba"; "foobar"] =
  [""; "Zg=="; "Zm8="; "Zm9v"; "Zm9vYg=="; "Zm9vYmE="; "Zm9vYmFy"].
Proof. reflexivity. Qed.

(** ** [phoneState] inherits from [Object.prototype] *)

Example empty_object_reads :
  JS.get JS.empty_object "+10000000000" = VScalar SUndefined /\
  JS.get JS.empty_object "constructor" = VBuiltin "constructor" /\
  JS.get JS.empty_object "__proto__" = VBuiltin "Object.prototype" /\
  JS.get (JS.set JS.empty_object "__proto__" (SStr "abc")) "__proto__" =
    VBuiltin "Object.prototype" /\
  JS.get (JS.set JS.empty_object "constructor" (SStr "abc")) "constructor" =
    VScalar (SStr "abc").
Proof. repeat split; vm_compute; reflexivity. Qed.

(** ** C6, and what holds without a client *)

(** C6, at the request that breaks it: a process that never served [start]
    receives [POST /auth/verify] with nothing a body parser takes.  The
    handler destructures [req.body] before it tests [client], so the
    answer is the 500 of the [TypeError], not the 400; the same request
    to [sendCode], which tests [client] first, is answered 400.  Neither
    calls anything. *)
Lemma verify_without_body_before_start :
  client (gw (fresh cooperative tt)) = None /\
  receive (Unparsed ToAuthVerify) (fresh cooperative tt) =
    (status_json 500
       (BError "TypeError: Cannot destructure property 'phone' of 'req.body' as it is undefined."),
     fresh cooperative tt) /\
  receive (Unparsed ToAuthSendCode) (fresh cooperative tt) =
    (status_json 400 (BError "client not initialized (call /auth/start)"),
     fresh cooperative tt).
Proof. repeat split. Qed.

Lemma no_client_answers_witness :
  client (gw (fresh cooperative tt)) = None /\
  auth_sendCode phone (fresh cooperative tt) =
    (status_json 400 (BError "client not initialized (call /auth/start)"),
     fresh cooperative tt) /\
  auth_verify phone code (fresh cooperative tt) =
    (status_json 400 (BError "client not initialized"), fresh cooperative tt) /\
  channels (fresh cooperative tt) =
    (status_json 400 (BError "not logged in"), fresh cooperative tt) /\
  send channel uploads (fresh cooperative tt) =
    (status_json 400 (BError "not logged in"), fresh cooperative tt).
Proof.
  split; [reflexivity |].
  destruct (no_client_answers (P := cooperative) (fresh cooperative tt)
              phone code channel uploads eq_refl)
    as (H1 & _ & H3 & _ & H5 & H6 & _).
  repeat split; assumption.
Defined.

(** ** C10 *)

Lemma start_failure_keeps_new_credentials_witness :
  (truthy (SNum 777) = true /\ truthy (SStr "xyz") = true /\
   fst (createClient (SNum 777) (SStr "xyz") (sessionString (gw restarting)) restarting) =
     Throw "Error: connection refused") /\
  fst (auth_start (SNum 777) (SStr "xyz") restarting) =
    status_json 500 (BError "Error: connection refused") /\
  storedApiId (gw (snd (auth_start (SNum 777) (SStr "xyz") restarting))) = SNum 777 /\
  storedApiHash (gw (snd (auth_start (SNum 777) (SStr "xyz") restarting))) = SStr "xyz" /\
  client (gw (snd (auth_start (SNum 777) (SStr "xyz") restarting))) = Some full_client /\
  sessionString (gw (snd (auth_start (SNum 777) (SStr "xyz") restarting))) = a_session.
Proof.
  split; [repeat split |].
  exact (start_failure_keeps_new_credentials (P := unreachable) restarting
           (SNum 777) (SStr "xyz") "Error: connection refused"
           eq_refl eq_refl eq_refl).
Defined.

(** ** C1 *)

(** C1, as stated, fails here: the code request resolves to an object with
    none of the three fields, and [sendCode] still answers 200 [{ok:true}], and stores [null] for the
    phone. *)
Lemma sendCode_without_alias_answers_ok :
  client (gw (after_start no_alias tt)) = Some full_client /\
  truthy phone = true /\
  fst (code_request full_client phone (after_start no_alias tt)) = Ok (Some no_fields) /\
  find truthy [phoneCodeHash no_fields; phone_code_hash no_fields; underscore no_fields]
    = None /\
  fst (auth_sendCode phone (after_start no_alias tt)) = json BOk /\
  status (fst (auth_sendCode phone (after_start no_alias tt))) = 200 /\
  own (phoneState (gw (snd (auth_sendCode phone (after_start no_alias tt)))))
    !! "+10000000000" = Some SNull.
Proof. repeat split; vm_compute; reflexivity. Qed.

Lemma sendCode_records_first_truthy_alias_witness :
  (client (gw (after_start cooperative tt)) = Some full_client /\
   truthy phone = true /\
   code_request full_client phone (after_start cooperative tt) =
     (Ok (Some (with_hash "abc")),
      snd (code_request full_client phone (after_start cooperative tt)))) /\
  fst (auth_sendCode phone (after_start cooperative tt)) = json BOk /\
  JS.get (phoneState (gw (snd (auth_sendCode phone (after_start cooperative tt)))))
         "+10000000000" = VScalar (SStr "abc").
Proof.
  split; [repeat split |].
  destruct (sendCode_records_first_truthy_alias (P := cooperative)
              (after_start cooperative tt) full_client phone (with_hash "abc")
              (snd (code_request full_client phone (after_start cooperative tt)))
              eq_refl eq_refl eq_refl) as (Hrun & Hget & _).
  split.
  - exact (f_equal fst Hrun).
  - refine (eq_trans _ (Hget _)).
    + exact (f_equal (fun r => JS.get (phoneState (gw (snd r))) "+10000000000") Hrun).
    + discriminate.
Defined.

(** ** C4 and C5 *)

(** C4, as stated, fails here: the client has no [signIn], so neither
    shape is attempted; the request makes no call at all and the 500
    carries the [TypeError] of the call expression. *)
Lemma verify_without_signIn_attempts_nothing :
  client (gw (after_sendCode bare tt)) = Some bare_client /\
  truthy phone = true /\ truthy code = true /\
  JS.get (phoneState (gw (after_sendCode bare tt))) "+10000000000"
    = VScalar (SStr "abc") /\
  trace (snd (auth_verify phone code (after_sendCode bare tt))) = [] /\
  fst (auth_verify phone code (after_sendCode bare tt)) =
    status_json 500 (BError "TypeError: client.signIn is not a function").
Proof. repeat split; vm_compute; reflexivity. Qed.

Lemma verify_sign_in_attempts_witness :
  (client (gw (after_sendCode rejecting tt)) = Some full_client /\
   truthy phone = true /\ truthy code = true /\
   truthy_val (JS.get (phoneState (gw (after_sendCode rejecting tt)))
                      (to_property_key (P := rejecting) phone)) = true) /\
  exists evs,
    trace (snd (auth_verify phone code (after_sendCode rejecting tt))) = [] ++ evs /\
    ((exists save,
        evs = [returned (SignInObject full_client phone code (VScalar (SStr "abc"))); save] /\
        ev_call save = SessionSave full_client) \/
     (exists e1 save,
        evs = [threw (SignInObject full_client phone code (VScalar (SStr "abc"))) e1;
               returned (SignInPositional full_client phone code); save] /\
        ev_call save = SessionSave full_client) \/
     (exists e1 e2,
        evs = [threw (SignInObject full_client phone code (VScalar (SStr "abc"))) e1;
               threw (SignInPositional full_client phone code) e2] /\
        fst (auth_verify phone code (after_sendCode rejecting tt)) =
          status_json 500 (BError e2))).
Proof.
  split; [repeat split |].
  exact (verify_sign_in_attempts (P := rejecting) (after_sendCode rejecting tt)
           full_client phone code eq_refl eq_refl eq_refl eq_refl).
Defined.

Example verify_both_shapes_rejected :
  trace (snd (auth_verify phone code (after_sendCode rejecting tt))) =
    [ threw (SignInObject full_client phone code (VScalar (SStr "abc")))
            "Error: PHONE_CODE_INVALID";
      threw (SignInPositional full_client phone code) "Error: PHONE_CODE_EXPIRED" ] /\
  fst (auth_verify phone code (after_sendCode rejecting tt)) =
    status_json 500 (BError "Error: PHONE_CODE_EXPIRED") /\
  sessionString (gw (snd (auth_verify phone code (after_sendCode rejecting tt)))) = SStr "".
Proof. repeat split; vm_compute; reflexivity. Qed.

(** C5, as stated, fails here: [session.save()] returns the empty string,
    [verify] answers 200 and
    both the stored token and the one in the body are empty. *)
Lemma verify_succeeds_with_empty_session :
  fst (auth_verify phone code (after_sendCode empty_save tt)) = json (BOkSession (SStr "")) /\
  status (fst (auth_verify phone code (after_sendCode empty_save tt))) = 200 /\
  sessionString (gw (snd (auth_verify phone code (after_sendCode empty_save tt)))) = SStr "" /\
  truthy (SStr "") = false.
Proof. repeat split; vm_compute; reflexivity. Qed.

(** ** C7 *)

(** C7, at the request that breaks it: no [sendCode] was ever made,
    [phoneState] is still [{}]; yet [verify]
    for the phone ["constructor"] finds the inherited property, calls
    [signIn] with it and answers 200. *)
Lemma verify_inherited_key_signs_in :
  phoneState (gw (after_start cooperative tt)) = JS.empty_object /\
  own (phoneState (gw (after_start cooperative tt))) !! "constructor" = None /\
  trace (snd (auth_verify (SStr "constructor") code (after_start cooperative tt))) =
    [ returned (SignInObject full_client (SStr "constructor") code (VBuiltin "constructor"));
      returned (SessionSave full_client) ] /\
  fst (auth_verify (SStr "constructor") code (after_start cooperative tt)) =
    json (BOkSession a_session).
Proof. repeat split; vm_compute; reflexivity. Qed.

(** ** C8 *)

(** C8, at the requests that break it.  First: the temporary client has no
    [qrLogin] and its [disconnect] throws, so the answer is the generic
    500, not the 501.  Second: the login token is a plain [Uint8Array], so
    what follows the prefix in [qrData] is its octets in decimal, not its
    base64. *)
Lemma qr_start_misses_501_and_base64 :
  (truthy (SNum 12345) = true /\ truthy (SStr "abc") = true) /\
  (fst (createClient (SNum 12345) (SStr "abc") (SStr "") (fresh no_qr_failing_disconnect tt))
     = Ok no_qr_client /\
   has_qrLogin no_qr_client = false /\
   fst (auth_qr_start (SNum 12345) (SStr "abc") (fresh no_qr_failing_disconnect tt)) =
     status_json 500 (BError "Error: Cannot send requests while disconnected")) /\
  (qrWaiter (gw (snd (auth_qr_start (SNum 12345) (SStr "abc") (fresh uint8_token tt)))) =
     Some {| qid := 0; token := Uint8ArrayToken (Base64.of_text "foobar") |} /\
   fst (auth_qr_start (SNum 12345) (SStr "abc") (fresh uint8_token tt)) =
     json (BOkQr "data:text/plain;base64,102,111,111,98,97,114") /\
   Base64.encode (Base64.of_text "foobar") = "Zm9vYmFy").
Proof. repeat split; vm_compute; reflexivity. Qed.

Lemma qr_start_outcomes_witness :
  (truthy (SNum 12345) = true /\ truthy (SStr "abc") = true /\
   createClient (SNum 12345) (SStr "abc") (SStr "") (fresh cooperative tt) =
     (Ok full_client,
      snd (createClient (SNum 12345) (SStr "abc") (SStr "") (fresh cooperative tt)))) /\
  fst (auth_qr_start (SNum 12345) (SStr "abc") (fresh cooperative tt)) =
    json (BOkQr "data:text/plain;base64,Zm9vYmFy") /\
  qrWaiter (gw (snd (auth_qr_start (SNum 12345) (SStr "abc") (fresh cooperative tt)))) =
    Some the_qr.
Proof.
  split; [repeat split |].
  destruct (qr_start_outcomes (P := cooperative) (fresh cooperative tt)
              (SNum 12345) (SStr "abc") full_client
              (snd (createClient (SNum 12345) (SStr "abc") (SStr "") (fresh cooperative tt)))
              eq_refl eq_refl eq_refl) as (_ & _ & Hqr).
  pose proof (Hqr eq_refl the_qr _ eq_refl) as Hrun.
  split.
  - exact (f_equal fst Hrun).
  - exact (f_equal (fun r => qrWaiter (gw (snd r))) Hrun).
Defined.

Example qr_start_unsupported_501 :
  fst (auth_qr_start (SNum 12345) (SStr "abc") (fresh no_qr tt)) =
    status_json 501 (BError "QR login not supported by library version on server") /\
  qrWaiter (gw (snd (auth_qr_start (SNum 12345) (SStr "abc") (fresh no_qr tt)))) = None.
Proof. repeat split; vm_compute; reflexivity. Qed.

(** ** C2 *)

(** C2, at the request that breaks it: a process serves [qr/start], which
    remembers no credentials, and then, the scan confirmed within the
    second, [qr/status].  The main client is absent, so it is created from
    [storedApiId] and [storedApiHash], both still [null]; the constructor
    refuses them, the inner [catch] answers [{loggedIn:false}], and neither
    [client] nor [sessionString] is set. *)
Lemma qr_status_confirmed_but_not_logged_in :
  qrWaiter (gw (after_qr_start strict_constructor tt)) = Some the_qr /\
  client (gw (after_qr_start strict_constructor tt)) = None /\
  storedApiId (gw (after_qr_start strict_constructor tt)) = SNull /\
  storedApiHash (gw (after_qr_start strict_constructor tt)) = SNull /\
  fst (call (QrWaitRace the_qr) (after_qr_start strict_constructor tt)) = Ok tt /\
  fst (auth_qr_status (after_qr_start strict_constructor tt)) = json (BLoggedIn false) /\
  trace (snd (auth_qr_status (after_qr_start strict_constructor tt))) =
    [ returned (QrWaitRace the_qr);
      returned (NewStringSession (SStr ""));
      threw (NewTelegramClient {| sid := 0 |} (SNum 0) SNull)
            "Error: Your API ID or Hash cannot be empty or undefined" ] /\
  client (gw (snd (auth_qr_status (after_qr_start strict_constructor tt)))) = None /\
  sessionString (gw (snd (auth_qr_status (after_qr_start strict_constructor tt)))) = SStr "".
Proof. repeat split; vm_compute; reflexivity. Qed.

Lemma qr_status_pending_witness :
  qrWaiter (gw (after_start_and_qr_start cooperative tt)) = Some the_qr /\
  fst (auth_qr_status (after_start_and_qr_start cooperative tt)) = json (BLoggedIn true) /\
  qrWaiter (gw (snd (auth_qr_status (after_start_and_qr_start cooperative tt)))) =
    Some the_qr /\
  client (gw (snd (auth_qr_status (after_start_and_qr_start cooperative tt)))) =
    Some full_client /\
  sessionString (gw (snd (auth_qr_status (after_start_and_qr_start cooperative tt)))) =
    a_session.
Proof.
  split; [reflexivity |].
  destruct (qr_status_pending (P := cooperative) (after_start_and_qr_start cooperative tt)
              the_qr eq_refl) as (Hq & _ & _ & Hok).
  destruct (Hok _ eq_refl) as (_ & _ & _ & Hc).
  destruct (Hc full_client _ eq_refl) as (_ & _ & Hs).
  destruct (Hs a_session _ eq_refl) as (Hresp & Henv).
  split; [exact Hresp |]. split; [exact Hq |].
  split.
  - exact (f_equal (fun env => client (gw env)) Henv).
  - exact (f_equal (fun env => sessionString (gw env)) Henv).
Defined.

(** ** C9 *)

Lemma channels_lists_channel_dialogs_witness :
  (client (gw (after_start cooperative tt)) = Some full_client /\
   call (GetDialogs full_client) (after_start cooperative tt) =
     (Ok some_dialogs, snd (call (GetDialogs full_client) (after_start cooperative tt)))) /\
  fst (channels (after_start cooperative tt)) =
    json (BChannels [ {| ch_id := "-1001234567890123456789"; ch_title := "news" |};
                      {| ch_id := "7"; ch_title := "releases" |} ]).
Proof.
  split; [repeat split |].
  destruct (channels_lists_channel_dialogs (P := cooperative) (after_start cooperative tt)
              full_client some_dialogs
              (snd (call (GetDialogs full_client) (after_start cooperative tt)))
              eq_refl eq_refl) as (Hrun & _).
  exact (f_equal fst Hrun).
Defined.

(** ** C3 *)

Lemma send_cleans_up_and_stops_at_failure_witness :
  (client (gw (after_start flaky tt)) = Some full_client /\ truthy channel = true) /\
  exists evs,
    trace (snd (send channel uploads (after_start flaky tt))) = [] ++ evs /\
    performed (P := flaky) (world (after_start flaky tt)) evs
              (world (snd (send channel uploads (after_start flaky tt)))) /\
    send_run (P := flaky) full_client channel uploads evs
             (fst (send channel uploads (after_start flaky tt))).
Proof.
  split; [repeat split |].
  destruct (send_cleans_up_and_stops_at_failure (P := flaky) (after_start flaky tt)
              full_client channel uploads eq_refl eq_refl)
    as (evs & Ht & Hp & _ & Hrun & _).
  exists evs. split; [exact Ht | split; [exact Hp | exact Hrun]].
Defined.

(** C3, as stated, fails here: two uploads are on disk and the first cannot
    be unlinked.  Both are sent and the answer is [{status:"sent"}], but
    the [EPERM] of the first unlink is swallowed and the first upload is
    still on disk when the request is over. *)
Lemma send_leaves_upload_it_cannot_unlink :
  client (gw two_staged) = Some full_client /\
  truthy channel = true /\
  world two_staged = ["/tmp/tg_uploads/a1"; "/tmp/tg_uploads/b2"] /\
  fst (send channel two_uploads two_staged) = json BSent /\
  trace (snd (send channel two_uploads two_staged)) =
    [ returned (SendFile full_client channel "/tmp/tg_uploads/a1" "a.txt");
      threw (UnlinkSync "/tmp/tg_uploads/a1")
            "Error: EPERM: operation not permitted, unlink";
      returned (SendFile full_client channel "/tmp/tg_uploads/b2" "b.txt");
      returned (UnlinkSync "/tmp/tg_uploads/b2") ] /\
  world (snd (send channel two_uploads two_staged)) = ["/tmp/tg_uploads/a1"].
Proof. repeat split; vm_compute; reflexivity. Qed.

(** Four uploads: the first goes through, the second needs the fallback,
    the third fails both ways and is still unlinked, the fourth is never
    touched. *)
Example send_four_uploads :
  trace (snd (send channel uploads (after_start flaky tt))) =
    [ returned (SendFile full_client channel "/tmp/tg_uploads/a1" "a.txt");
      returned (UnlinkSync "/tmp/tg_uploads/a1");
      threw (SendFile full_client channel "/tmp/tg_uploads/b2" "b.txt")
            "Error: FILE_PARTS_INVALID";
      returned (SendMessage full_client channel "/tmp/tg_uploads/b2" "b.txt");
      returned (UnlinkSync "/tmp/tg_uploads/b2");
      threw (SendFile full_client channel "/tmp/tg_uploads/c3" "c.txt")
            "Error: FILE_PARTS_INVALID";
      threw (SendMessage full_client channel "/tmp/tg_uploads/c3" "c.txt")
            "Error: CHAT_WRITE_FORBIDDEN";
      returned (UnlinkSync "/tmp/tg_uploads/c3") ] /\
  fst (send channel uploads (after_start flaky tt)) =
    status_json 500 (BError "Error: CHAT_WRITE_FORBIDDEN").
Proof. repeat split; vm_compute; reflexivity. Qed.

Example send_no_files :
  send channel [] (after_start cooperative tt) = (json BSent, after_start cooperative tt).
Proof. reflexivity. Qed.

End Scenarios.

(** * The application as a whole *)

Section Application.

Context {P : Platform}.

Implicit Types (env : Env) (c : Client) (e : exn) (req : Request).

Local Open Scope list_scope.

Ltac unfold_handlers :=
  unfold serve, auth_start, auth_sendCode, auth_verify, auth_qr_start,
         auth_qr_status, auth_qr_cancel, channels,
         ensure_client, code_request, createClient, call,
         catching, try_catch, try_finally, read, modify, throw,
         mbind, M_bind, mret, M_ret in *.

Ltac case_step :=
  match goal with
  | |- context [if ?b then _ else _] =>
      lazymatch type of b with
      | bool => let E := fresh "E" in destruct b eqn:E; cbn in *
      end
  | |- context [match ?x with Some _ => _ | None => _ end] =>
      let E := fresh "E" in destruct x eqn:E; cbn in *
  | |- context [perform ?k ?w] =>
      let E := fresh "E" in destruct (perform k w) as [[?|?] ?] eqn:E; cbn in *
  end.

Ltac explore := unfold_handlers; cbn in *; repeat case_step.

(** ** [createClient] *)

Lemma createClient_first_call apiId apiHash session env :
  exists ev rest,
    trace (snd (createClient apiId apiHash session env)) = trace env ++ ev :: rest /\
    ev_call ev = NewStringSession (or_else session (SStr "")).
Proof.
  explore; rewrite <- ?app_assoc; cbn; do 2 eexists; split; reflexivity.
Qed.

(** [createClient] makes its three calls in order, and they are what the
    platform was asked: [new StringSession] on the given session or [''];
    [new TelegramClient] on the session that call returned, [Number(apiId)]
    and [apiHash]; [connect] on the client that call returned.  It stops at
    the first that throws and passes that on; when all three return it
    hands back the client the constructor returned; and it assigns no
    module-level variable. *)
Theorem createClient_calls apiId apiHash session env :
  let r := fst (createClient apiId apiHash session env) in
  let env' := snd (createClient apiId apiHash session env) in
  let new_session := NewStringSession (or_else session (SStr "")) in
  gw env' = gw env /\
  exists evs,
    trace env' = trace env ++ evs /\
    performed (world env) evs (world env') /\
    ((exists e, evs = [threw new_session e] /\ r = Throw e) \/
     (exists sess,
        fst (perform new_session (world env)) = Ok sess /\
        let new_client := NewTelegramClient sess (js_Number apiId) apiHash in
        let w1 := snd (perform new_session (world env)) in
        ((exists e, evs = [returned new_session; threw new_client e] /\ r = Throw e) \/
         (exists tg,
            fst (perform new_client w1) = Ok tg /\
            ((exists e,
                evs = [returned new_session; returned new_client; threw (Connect tg) e] /\
                r = Throw e) \/
             (evs = [returned new_session; returned new_client; returned (Connect tg)] /\
              r = Ok tg)))))).
Proof.
  cbv zeta.
  destruct (createClient_faithful apiId apiHash session env) as (evs & Ht & Hp).
  split; [apply createClient_gw |]. exists evs. split; [exact Ht |]. split; [exact Hp |].
  clear Hp. revert Ht. explore; rewrite <- ?app_assoc; cbn; intros Ht;
    apply app_inv_head in Ht; subst evs;
    first
      [ left; solve [eauto]
      | right; eexists; split; [reflexivity |]; cbn;
        first
          [ left; solve [eauto]
          | right; eexists; split;
            [ match goal with H : perform (NewTelegramClient _ _ _) _ = _ |- _ =>
                rewrite H; reflexivity end |];
            eauto ] ].
Qed.

(** ** Every route *)

Lemma send_files_gw c channelId files env :
  gw (snd (send_files c channelId files env)) = gw env.
Proof. destruct (send_files_run c channelId files env) as (evs & _ & Hg & _). exact Hg. Qed.

Lemma send_eq channelId files env :
  send channelId files env =
    match client (gw env) with
    | None => (status_json 400 (BError "not logged in"), env)
    | Some c =>
        if truthy channelId
        then (send_answer (fst (send_files c channelId files env)),
              snd (send_files c channelId files env))
        else (status_json 400 (BError "channelId required"), env)
    end.
Proof.
  unfold send, catching, read, mbind, M_bind, mret, M_ret.
  destruct (client (gw env)) as [c|]; [| reflexivity].
  destruct (truthy channelId); cbn; [| reflexivity].
  now destruct (send_files c channelId files env) as [[[]|e] env1].
Qed.

Lemma with_gw_same env g : g = gw env -> with_gw g env = env.
Proof. intros ->. now destruct env. Qed.

Ltac open_send :=
  rewrite send_eq; unfold send_answer;
  repeat match goal with
         | |- context [match ?x with _ => _ end] => destruct x; cbn
         end.

Lemma serve_400_env req env :
  status (fst (serve req env)) = 400 -> snd (serve req env) = env.
Proof.
  destruct req; cbn [serve]; try open_send; explore;
    intros H; try discriminate H; reflexivity.
Qed.

(** A request that brought no upload and is answered 400 called nothing and
    assigned nothing: the variables, the world and the trace are the ones
    from before the request.  (With uploads the same holds from the moment
    the handler starts, and the files multer staged stay on disk.) *)
Theorem receive_400_untouched (i : Incoming) env :
  uploads_of i = [] ->
  status (fst (receive i env)) = 400 ->
  snd (receive i env) = env.
Proof.
  intros _. destruct i as [req | r]; cbn [receive]; [apply serve_400_env |].
  destruct r; unfold without_body; explore; intros H; try discriminate H; reflexivity.
Qed.

(** Apart from [start], a request that is not answered 200 assigns no
    module-level variable. *)
Theorem serve_failure_keeps_state req env :
  is_start req = false ->
  status (fst (serve req env)) <> 200 ->
  gw (snd (serve req env)) = gw env.
Proof.
  destruct req; cbn [serve is_start]; try discriminate; intros _;
    try (rewrite send_eq;
         destruct (client (gw env)), (truthy channelId); cbn;
         intros _; rewrite ?send_files_gw; reflexivity);
    explore; intros H; try reflexivity; now contradiction H.
Qed.

(** What each route leaves alone, whatever happens: [start] the session
    token, the pending codes and the QR attempt; [sendCode] everything but
    the pending codes; [verify] everything but the session token;
    [qr/start] and [qr/cancel] everything but the QR attempt; [qr/status]
    the credentials, the pending codes and the QR attempt; [channels] and
    [send] everything. *)
Theorem serve_frame req env :
  let g := gw env in
  let g' := gw (snd (serve req env)) in
  match req with
  | PostAuthStart _ _ =>
      sessionString g' = sessionString g /\ phoneState g' = phoneState g /\
      qrWaiter g' = qrWaiter g
  | PostAuthSendCode _ =>
      client g' = client g /\ sessionString g' = sessionString g /\
      storedApiId g' = storedApiId g /\ storedApiHash g' = storedApiHash g /\
      qrWaiter g' = qrWaiter g
  | PostAuthVerify _ _ =>
      client g' = client g /\ storedApiId g' = storedApiId g /\
      storedApiHash g' = storedApiHash g /\ phoneState g' = phoneState g /\
      qrWaiter g' = qrWaiter g
  | PostAuthQrStart _ _ | PostAuthQrCancel =>
      client g' = client g /\ sessionString g' = sessionString g /\
      storedApiId g' = storedApiId g /\ storedApiHash g' = storedApiHash g /\
      phoneState g' = phoneState g
  | GetAuthQrStatus =>
      storedApiId g' = storedApiId g /\ storedApiHash g' = storedApiHash g /\
      phoneState g' = phoneState g /\ qrWaiter g' = qrWaiter g
  | GetChannels | PostSend _ _ => g' = g
  end.
Proof.
  cbv zeta. destruct req; cbn [serve];
    try (rewrite send_eq;
         destruct (client (gw env)), (truthy channelId); cbn;
         rewrite ?send_files_gw; reflexivity);
    explore; repeat split; try reflexivity; congruence.
Qed.

(** ** Sequences of requests *)

Lemma serve_all_cons req rs env :
  serve_all (req :: rs) env =
    (fst (serve req env) :: fst (serve_all rs (snd (serve req env))),
     snd (serve_all rs (snd (serve req env)))).
Proof.
  cbn [serve_all]. destruct (serve req env) as [resp env1]. cbn.
  now destruct (serve_all rs env1).
Qed.

Lemma serve_keeps_client req env c :
  client (gw env) = Some c ->
  (exists c', client (gw (snd (serve req env))) = Some c') /\
  (is_start req = false -> client (gw (snd (serve req env))) = Some c).
Proof.
  intros Hc. destruct req; cbn [serve is_start];
    try (rewrite send_eq, Hc; destruct (truthy channelId); cbn;
         rewrite ?send_files_gw; eauto);
    explore; split; intros; eauto; try congruence; discriminate.
Qed.

(** Once a client exists, every later request finds one: no route ever
    resets [client].  It is even the same client for as long as no [start]
    request is served. *)
Theorem client_never_unset rs env c :
  client (gw env) = Some c ->
  (exists c', client (gw (snd (serve_all rs env))) = Some c') /\
  (forallb (fun req => negb (is_start req)) rs = true ->
   client (gw (snd (serve_all rs env))) = Some c).
Proof.
  revert env c. induction rs as [|req rs IH]; intros env c Hc.
  - cbn. eauto.
  - rewrite serve_all_cons. cbn [snd forallb].
    destruct (serve_keeps_client req env c Hc) as ((c' & Hc') & Hsame).
    split.
    + exact (proj1 (IH _ _ Hc')).
    + intros H. apply andb_prop in H as [H1 H2].
      apply negb_true_iff in H1. apply (IH _ c (Hsame H1)). exact H2.
Qed.

Lemma receive_all_cons i reqs env :
  receive_all (i :: reqs) env =
    (fst (receive i env) :: fst (receive_all reqs (snd (receive i env))),
     snd (receive_all reqs (snd (receive i env)))).
Proof.
  cbn [receive_all]. destruct (receive i env) as [resp env1]. cbn.
  now destruct (receive_all reqs env1).
Qed.

Lemma receive_quiet i env :
  client (gw env) = None ->
  qrWaiter (gw env) = None ->
  starts i = false ->
  uploads_of i = [] ->
  snd (receive i env) = env /\ idle_answer (fst (receive i env)).
Proof.
  intros Hc Hq. unfold idle_answer. destruct i as [req | r]; cbn [receive starts uploads_of].
  - intros Hs _. apply orb_false_iff in Hs as [Hs Hqs]. revert Hs Hqs.
    destruct req; cbn [serve is_start is_qr_start]; try discriminate;
      intros _ _; try open_send; explore; try congruence; split; auto.
    apply with_gw_same. destruct env as [g w t]. destruct g. cbn in *. now subst.
  - intros _ _. destruct r; unfold without_body; explore; try congruence; split; eauto.
Qed.

(** A process without a client and without a QR attempt stays exactly as it
    is, and calls nothing, for as long as the requests it is sent bring no
    upload and none is a [start] or [qr/start] with a body: each is
    answered 400, or 500 with the [TypeError] of destructuring an undefined
    [req.body] ([verify], [start] and [qr/start] without a body), or
    [{loggedIn:false}], or, for [qr/cancel], [{ok:true}]. *)
Theorem nothing_happens_before_start (reqs : list Incoming) env :
  client (gw env) = None ->
  qrWaiter (gw env) = None ->
  forallb (fun i => negb (starts i)) reqs = true ->
  Forall (fun i => uploads_of i = []) reqs ->
  snd (receive_all reqs env) = env /\
  Forall idle_answer (fst (receive_all reqs env)).
Proof.
  intros Hc Hq. induction reqs as [|i reqs IH]; intros H Hu.
  - cbn. split; [reflexivity | constructor].
  - cbn [forallb] in H. apply andb_prop in H as [H1 H2].
    apply negb_true_iff in H1. inversion Hu as [|? ? Hu1 Hu2]; subst.
    destruct (receive_quiet i env Hc Hq H1 Hu1) as [He Hr].
    rewrite receive_all_cons, He. cbn [fst snd].
    destruct (IH H2 Hu2) as [IH1 IH2]. split; [exact IH1 |].
    constructor; [exact Hr | exact IH2].
Qed.

(** ** Required fields *)

(** A falsy value ([undefined], [null], [false], [0] or ['']) in a required
    field gets the request a 400 before anything is called or assigned,
    whatever the other fields hold and whether or not a client exists.  For
    [send] this means the uploaded files stay where multer put them. *)
Theorem falsy_field_rejected env falsy other files :
  truthy falsy = false ->
  rejects_untouched (auth_start falsy other) env /\
  rejects_untouched (auth_start other falsy) env /\
  rejects_untouched (auth_qr_start falsy other) env /\
  rejects_untouched (auth_qr_start other falsy) env /\
  rejects_untouched (auth_sendCode falsy) env /\
  rejects_untouched (auth_verify falsy other) env /\
  rejects_untouched (auth_verify other falsy) env /\
  rejects_untouched (send falsy files) env.
Proof.
  intros H. unfold rejects_untouched. rewrite send_eq, H. unfold_handlers.
  rewrite H. rewrite ?orb_true_r. cbn.
  repeat split; try (eexists; reflexivity);
    destruct (client (gw env)); cbn; rewrite ?orb_true_r; eexists; reflexivity.
Qed.

(** ** Sessions *)

Lemma auth_start_first_call env apiId apiHash :
  truthy apiId = true ->
  truthy apiHash = true ->
  exists ev rest,
    trace (snd (auth_start apiId apiHash env)) = trace env ++ ev :: rest /\
    ev_call ev = NewStringSession (or_else (sessionString (gw env)) (SStr "")).
Proof.
  intros Ha Hh. unfold_handlers. rewrite Ha, Hh. cbn. repeat case_step;
    rewrite <- ?app_assoc; cbn; do 2 eexists; split; reflexivity.
Qed.


(** With both fields truthy, the first thing [start] does is build a
    [StringSession] from the stored session token (or [''] when it is
    falsy), and the first thing [qr/start] does is build one from [''],
    whatever token is stored. *)
Theorem session_handed_to_library env apiId apiHash :
  truthy apiId = true ->
  truthy apiHash = true ->
  (exists ev rest,
     trace (snd (auth_start apiId apiHash env)) = trace env ++ ev :: rest /\
     ev_call ev = NewStringSession (or_else (sessionString (gw env)) (SStr ""))) /\
  (exists ev rest,
     trace (snd (auth_qr_start apiId apiHash env)) = trace env ++ ev :: rest /\
     ev_call ev = NewStringSession (SStr "")).
Proof.
  intros Ha Hh. split; [now apply auth_start_first_call |].
  unfold_handlers. rewrite Ha, Hh. cbn. repeat case_step;
    rewrite <- ?app_assoc; cbn; do 2 eexists; split; reflexivity.
Qed.


(** ** Pending codes *)

Lemma get_set_other (o : JS.object) (k k' : string) (v : scalar) :
  k <> "__proto__" -> k' <> k -> JS.get (JS.set o k v) k' = JS.get o k'.
Proof.
  intros Hk Hne. apply String.eqb_neq in Hk.
  unfold JS.get, JS.set. destruct (own o !! k) eqn:Ho; cbn.
  - now rewrite lookup_insert_ne by congruence.
  - rewrite Hk, andb_false_r. cbn. now rewrite lookup_insert_ne by congruence.
Qed.

Lemma call_gw_code_request c phone env r env0 :
  code_request c phone env = (r, env0) -> gw env0 = gw env.
Proof.
  unfold code_request. destruct (has_sendCodeRequest c); intros H.
  - exact (call_gw (SendCodeRequest c phone) _ _ _ H).
  - exact (call_gw (SendCode c phone) _ _ _ H).
Qed.

Lemma auth_sendCode_ok env c phone r env0 :
  client (gw env) = Some c ->
  truthy phone = true ->
  code_request c phone env = (Ok (Some r), env0) ->
  auth_sendCode phone env =
    (json BOk,
     with_gw (set_phoneState (JS.set (phoneState (gw env)) (to_property_key phone)
                                     (pick_hash r)) (gw env)) env0).
Proof.
  intros Hc Hp Hr.
  assert (Hg : gw env0 = gw env).
  { unfold code_request in Hr. destruct (has_sendCodeRequest c).
    - exact (call_gw (SendCodeRequest c phone) _ _ _ Hr).
    - exact (call_gw (SendCode c phone) _ _ _ Hr). }
  unfold auth_sendCode, catching, read, modify, mbind, M_bind, mret, M_ret.
  rewrite Hc. cbn. rewrite Hp. cbn. rewrite Hr. cbn. now rewrite Hg.
Qed.

Lemma auth_sendCode_phoneState env phone :
  phoneState (gw (snd (auth_sendCode phone env))) = phoneState (gw env) \/
  exists v,
    phoneState (gw (snd (auth_sendCode phone env))) =
      JS.set (phoneState (gw env)) (to_property_key phone) v.
Proof. explore; eauto. Qed.

(** What [sendCode] stores is what [verify] redeems: after a [sendCode]
    whose code request resolved to an object, a [verify] for the same
    phone (any but [__proto__]) with a client that has [signIn] first calls
    [signIn] with the stored hash as [phoneCodeHash] when the hash is
    truthy, and is turned down with a 400 and no call when it is not. *)
Theorem sendCode_then_verify env c phone code r env0 :
  client (gw env) = Some c ->
  has_signIn c = true ->
  truthy phone = true ->
  truthy code = true ->
  to_property_key phone <> "__proto__" ->
  code_request c phone env = (Ok (Some r), env0) ->
  let env1 := snd (auth_sendCode phone env) in
  if truthy (pick_hash r)
  then exists ev rest,
         trace (snd (auth_verify phone code env1)) = trace env1 ++ ev :: rest /\
         ev_call ev = SignInObject c phone code (VScalar (pick_hash r))
  else rejects_untouched (auth_verify phone code) env1.
Proof.
  intros Hc Hs Hp Hk Hkey Hr env1. subst env1.
  rewrite (auth_sendCode_ok _ _ _ _ _ Hc Hp Hr). cbn [snd].
  unfold rejects_untouched, auth_verify, call, catching, try_catch, read, modify,
         mbind, M_bind, mret, M_ret.
  cbn. rewrite ?(call_gw_code_request _ _ _ _ _ Hr), Hc. cbn. rewrite Hp, Hk. cbn.
  rewrite (get_set_same _ _ _ Hkey). cbn.
  destruct (truthy (pick_hash r)); cbn; [| eexists; reflexivity].
  rewrite Hs. cbn. repeat case_step; rewrite <- ?app_assoc; cbn;
    do 2 eexists; split; reflexivity.
Qed.

(** A [sendCode] for one phone (any but [__proto__]) changes nothing of
    what [phoneState] holds for any other phone, whatever its outcome. *)
Theorem sendCode_other_phones env phone other :
  to_property_key phone <> "__proto__" ->
  to_property_key other <> to_property_key phone ->
  JS.get (phoneState (gw (snd (auth_sendCode phone env)))) (to_property_key other) =
  JS.get (phoneState (gw env)) (to_property_key other).
Proof.
  intros Hk Hne. destruct (auth_sendCode_phoneState env phone) as [-> | (v & ->)].
  - reflexivity.
  - now apply get_set_other.
Qed.

(** Past its two checks [sendCode] makes one call, [sendCodeRequest] if the
    client has it and [sendCode] otherwise; when that call throws, the
    answer is the 500 carrying what it threw and nothing is stored. *)
Theorem sendCode_one_request env c phone :
  client (gw env) = Some c ->
  truthy phone = true ->
  exists ev,
    trace (snd (auth_sendCode phone env)) = trace env ++ [ev] /\
    ev_call ev = (if has_sendCodeRequest c then SendCodeRequest c phone
                  else SendCode c phone) /\
    (forall e, ev_threw ev = Some e ->
       fst (auth_sendCode phone env) = status_json 500 (BError e) /\
       gw (snd (auth_sendCode phone env)) = gw env).
Proof.
  intros Hc Hp. unfold_handlers. rewrite Hc. cbn. rewrite Hp. cbn.
  destruct (has_sendCodeRequest c); repeat case_step;
    eexists; (split; [reflexivity |]); (split; [reflexivity |]);
    cbn; intros e0 [=]; subst; auto.
Qed.

(** ** QR login, whatever the state *)

(** [qr/cancel] always answers [{ok:true}], calls nothing, and leaves no
    attempt pending; after it a second [qr/cancel] changes nothing and a
    [qr/status] answers [{loggedIn:false}] without calling anything. *)
Theorem qr_cancel_drops_attempt env :
  fst (auth_qr_cancel env) = json BOk /\
  qrWaiter (gw (snd (auth_qr_cancel env))) = None /\
  trace (snd (auth_qr_cancel env)) = trace env /\
  world (snd (auth_qr_cancel env)) = world env /\
  auth_qr_cancel (snd (auth_qr_cancel env)) = (json BOk, snd (auth_qr_cancel env)) /\
  auth_qr_status (snd (auth_qr_cancel env)) =
    (json (BLoggedIn false), snd (auth_qr_cancel env)).
Proof.
  repeat split.
Qed.

(** [qr/status] never answers an error: it is always a 200 with
    [{loggedIn: b}].  [b] is [true] only if an attempt was pending and the
    wait returned, and then a client exists afterwards. *)
Theorem qr_status_never_errors env :
  exists b,
    fst (auth_qr_status env) = json (BLoggedIn b) /\
    (b = true ->
     exists q c,
       qrWaiter (gw env) = Some q /\
       fst (perform (QrWaitRace q) (world env)) = Ok tt /\
       client (gw (snd (auth_qr_status env))) = Some c).
Proof.
  explore; eexists; (split; [reflexivity |]); intros H; try discriminate H;
    match goal with
    | Hw : perform (QrWaitRace ?q) _ = (Ok ?u, _) |- _ =>
        exists q; eexists; rewrite Hw; destruct u; cbn;
        repeat split; (reflexivity || eassumption)
    end.
Qed.

(** ** [channels], whatever the library answers *)

(** With a client, [channels] makes exactly one call, [getDialogs]; when it
    throws, the answer is the 500 carrying what it threw, and otherwise a
    200 with a list no longer than the list of dialogs. *)
Theorem channels_one_call env c :
  client (gw env) = Some c ->
  exists ev,
    trace (snd (channels env)) = trace env ++ [ev] /\
    ev_call ev = GetDialogs c /\
    (forall e, ev_threw ev = Some e -> fst (channels env) = status_json 500 (BError e)) /\
    (ev_threw ev = None ->
     exists (dialogs : list Dialog) chs,
       fst (perform (GetDialogs c) (world env)) = Ok dialogs /\
       fst (channels env) = json (BChannels chs) /\
       (length chs <= length dialogs)%nat).
Proof.
  intros Hc. unfold_handlers. rewrite Hc. cbn. repeat case_step;
    eexists; (split; [reflexivity |]); (split; [reflexivity |]); cbn;
    (split; [intros e0 [=]; now subst | intros [=]]).
  do 2 eexists. split; [reflexivity |]. split; [reflexivity |].
  rewrite length_map. apply filter_length_le.
Qed.

(** ** [send]: what is sent is what is unlinked *)

Lemma send_run_paths c channelId files evs resp :
  send_run c channelId files evs resp ->
  unlinkSync_paths evs = sendFile_paths evs /\
  exists rest,
    map (fun f => path_resolve (path f)) files = unlinkSync_paths evs ++ rest /\
    (resp = json BSent -> rest = []) /\
    (status resp = 500 -> unlinkSync_paths evs <> []).
Proof.
  induction 1 as [| f rest u evs resp Hu Hrun IH | f rest e u evs resp Hu Hrun IH
                  | f rest e1 e2 u Hu];
    unfold unlinkSync_paths, sendFile_paths in *; cbn; rewrite ?Hu; cbn.
  - split; [reflexivity |]. exists []. repeat split; auto; intros; discriminate.
  - destruct IH as (IH1 & more & IH2 & IH3 & IH4). split; [now rewrite IH1 |].
    exists more. rewrite IH2. repeat split; auto; intros; discriminate.
  - destruct IH as (IH1 & more & IH2 & IH3 & IH4). split; [now rewrite IH1 |].
    exists more. rewrite IH2. repeat split; auto; intros; discriminate.
  - split; [reflexivity |].
    exists (map (fun f => path_resolve (path f)) rest).
    repeat split; intros; discriminate.
Qed.

(** With a client and a truthy [channelId], the calls of one [send] are what
    the platform was really asked, and the paths it hands to
    [fs.unlinkSync] are exactly the paths it handed to [sendFile], in the
    same order.  They are an initial segment of the uploads: the whole list
    when the answer is [{status:"sent"}], at least one file when the answer
    is a 500.  The uploads after that segment get no [fs.unlinkSync] call,
    so they are left on disk. *)
Theorem send_unlinkSync_follows_sendFile env c channelId files :
  client (gw env) = Some c ->
  truthy channelId = true ->
  exists evs rest,
    trace (snd (send channelId files env)) = trace env ++ evs /\
    performed (world env) evs (world (snd (send channelId files env))) /\
    unlinkSync_paths evs = sendFile_paths evs /\
    map (fun f => path_resolve (path f)) files = unlinkSync_paths evs ++ rest /\
    (fst (send channelId files env) = json BSent -> rest = []) /\
    (status (fst (send channelId files env)) = 500 -> unlinkSync_paths evs <> []).
Proof.
  intros Hc Hch. rewrite send_eq, Hc, Hch. cbn [fst snd].
  destruct (send_files_run c channelId files env) as (evs & Ht & _ & Hr).
  destruct (send_files_faithful c channelId files env) as (evs' & Ht' & Hp).
  assert (evs' = evs) as -> by (rewrite Ht in Ht'; exact (eq_sym (app_inv_head _ _ _ Ht'))).
  destruct (send_run_paths _ _ _ _ _ Hr) as (H1 & rest & H2 & H3 & H4).
  exists evs, rest. auto 10.
Qed.

(** ** The dictionary over time *)

Lemma is_method_In (k : string) :
  is_object_prototype_method k = true <-> In k object_prototype_methods.
Proof.
  unfold is_object_prototype_method. rewrite existsb_exists. split.
  - intros (x & Hin & Hx). apply String.eqb_eq in Hx. now subst.
  - intros H. exists k. split; [exact H | apply String.eqb_refl].
Qed.

Lemma set_keeps_own (o : JS.object) (k k' : string) (v : scalar) :
  is_Some (own o !! k') -> is_Some (own (JS.set o k v) !! k').
Proof.
  intros H. unfold JS.set. destruct (own o !! k) eqn:Ho; cbn.
  - rewrite lookup_insert. case_decide; [eauto | exact H].
  - destruct (negb (proto_null o) && String.eqb k "__proto__"); cbn.
    + now destruct v.
    + rewrite lookup_insert. case_decide; [eauto | exact H].
Qed.

Lemma serve_phoneState req env :
  phoneState (gw (snd (serve req env))) = phoneState (gw env) \/
  exists k v, phoneState (gw (snd (serve req env))) = JS.set (phoneState (gw env)) k v.
Proof.
  destruct req; cbn [serve];
    try (rewrite send_eq; destruct (client (gw env)), (truthy channelId); cbn;
         rewrite ?send_files_gw; now left);
    explore; eauto.
Qed.

(** No route ever removes an entry of [phoneState]: a phone that has an own
    entry keeps one through any sequence of requests. *)
Theorem pending_codes_never_evicted rs env (k : string) :
  is_Some (own (phoneState (gw env)) !! k) ->
  is_Some (own (phoneState (gw (snd (serve_all rs env)))) !! k).
Proof.
  revert env. induction rs as [|req rs IH]; intros env H; [exact H |].
  rewrite serve_all_cons. cbn [snd]. apply IH.
  destruct (serve_phoneState req env) as [-> | (k0 & v & ->)];
    [exact H | now apply set_keeps_own].
Qed.

(** For a phone without an own entry, the hash check of [verify] turns the
    request down exactly when the key is not one that [phoneState] still
    inherits from [Object.prototype]. *)
Theorem verify_guard_on_unrecorded_phone env c phone code :
  client (gw env) = Some c ->
  truthy phone = true ->
  truthy code = true ->
  own (phoneState (gw env)) !! to_property_key phone = None ->
  (rejects_untouched (auth_verify phone code) env <->
   ~ (proto_null (phoneState (gw env)) = false /\
      (to_property_key phone = "__proto__" \/
       In (to_property_key phone) object_prototype_methods))).
Proof.
  intros Hc Hp Hk Ho.
  assert (Hget : truthy_val (JS.get (phoneState (gw env)) (to_property_key phone)) = true <->
                 proto_null (phoneState (gw env)) = false /\
                 (to_property_key phone = "__proto__" \/
                  In (to_property_key phone) object_prototype_methods)).
  { unfold JS.get. rewrite Ho.
    pose proof (is_method_In (to_property_key phone)) as Hm.
    remember (In (to_property_key phone) object_prototype_methods) as inherited.
    clear Heqinherited.
    destruct (is_object_prototype_method (to_property_key phone));
      destruct (proto_null (phoneState (gw env)));
      destruct (String.eqb_spec (to_property_key phone) "__proto__") as [Heq | Hne];
      cbn; intuition (try discriminate; try congruence). }
  rewrite <- Hget. split.
  - intros (msg & Hrun) Ht. revert Hrun.
    unfold auth_verify, call, catching, try_catch, read, modify, throw,
           mbind, M_bind, mret, M_ret.
    rewrite Hc. cbn. rewrite Hp, Hk. cbn. rewrite Ht. cbn.
    repeat case_step; discriminate.
  - intros Hf. apply verify_without_hash.
    now destruct (truthy_val (JS.get (phoneState (gw env)) (to_property_key phone))).
Qed.

(** ** [qr/start], then [qr/status] *)

Lemma auth_qr_start_200 env apiId apiHash qr :
  status (fst (auth_qr_start apiId apiHash env)) = 200 ->
  qrWaiter (gw (snd (auth_qr_start apiId apiHash env))) = Some qr ->
  fst (auth_qr_start apiId apiHash env) =
    json (BOkQr ("data:text/plain;base64," +:+ token_toString_base64 (token qr))).
Proof.
  explore; intros H; try discriminate H; intros Hq; cbn in Hq; congruence.
Qed.

(** When [qr/start] answers 200, an attempt is pending, the [qrData] of the
    answer is the data-URL prefix followed by what [toString('base64')]
    gives for that attempt's token (its base64 when the token is a Buffer,
    its octets in decimal separated by commas when it is a Uint8Array), and
    the first thing the next [qr/status] does is wait on that same attempt,
    whatever attempt was pending before. *)
Theorem qr_start_then_status env apiId apiHash :
  status (fst (auth_qr_start apiId apiHash env)) = 200 ->
  exists qr ev rest,
    qrWaiter (gw (snd (auth_qr_start apiId apiHash env))) = Some qr /\
    fst (auth_qr_start apiId apiHash env) =
      json (BOkQr ("data:text/plain;base64," +:+ token_toString_base64 (token qr))) /\
    trace (snd (auth_qr_status (snd (auth_qr_start apiId apiHash env)))) =
      trace (snd (auth_qr_start apiId apiHash env)) ++ ev :: rest /\
    ev_call ev = QrWaitRace qr.
Proof.
  unfold auth_qr_status.
  explore; intros H; try discriminate H; try (exfalso; congruence);
    repeat match goal with
           | Heq : Some _ = Some _ |- _ => injection Heq as ->
           end;
    do 3 eexists;
    (split; [reflexivity |]); (split; [reflexivity |]);
    (split; [rewrite <- ?app_assoc; reflexivity | reflexivity]).
Qed.

End Application.

(** * Base64 can be read back *)

Section Base64RoundTrip.

Import Base64 Base64Inverse.

Local Open Scope N_scope.

Lemma in_range (n : nat) (a : N) : a < N.of_nat n -> In a (range n).
Proof.
  intros H. unfold range. apply in_map_iff. exists (N.to_nat a). split; [lia |].
  apply in_seq. lia.
Qed.

Lemma check1 (n : nat) (f : N -> bool) :
  forallb f (range n) = true -> forall a, a < N.of_nat n -> f a = true.
Proof. intros H a Ha. rewrite forallb_forall in H. apply H, in_range, Ha. Qed.

Lemma check2 (n : nat) (f : N -> N -> bool) :
  forallb (fun a => forallb (f a) (range n)) (range n) = true ->
  forall a b, a < N.of_nat n -> b < N.of_nat n -> f a b = true.
Proof.
  intros H a b Ha Hb. rewrite forallb_forall in H.
  exact (check1 n (f a) (H a (in_range n a Ha)) b Hb).
Qed.

Lemma digit_value (n : N) : n < 64 -> value (digit n) = Some n /\ is_pad (digit n) = false.
Proof.
  intros H. pose proof (check1 64 digit_ok eq_refl n H) as Hok. unfold digit_ok in Hok.
  destruct (value (digit n)) as [m|]; [| discriminate].
  apply andb_prop in Hok as [H1 H2]. apply N.eqb_eq in H1. apply negb_true_iff in H2.
  now subst.
Qed.

Lemma pairs_ok : forall x y, x < 256 -> y < 256 -> pair_ok x y = true.
Proof. apply (check2 256). vm_compute. reflexivity. Qed.

Lemma pair_facts x y :
  x < 256 -> y < 256 ->
  (d1 x < 64 /\ d4 x < 64 /\ d2 x y < 64 /\ d3 x y < 64 /\
   N.shiftl (N.land x 3) 4 < 64 /\ N.shiftl (N.land x 15) 2 < 64) /\
  N.lor (N.shiftl (d1 x) 2) (N.shiftr (d2 x y) 4) = x /\
  N.lor (N.shiftl (d1 x) 2) (N.shiftr (N.shiftl (N.land x 3) 4) 4) = x /\
  N.lor (N.shiftl (N.land (d2 x y) 15) 4) (N.land y 15) = y /\
  N.shiftr (d3 x y) 2 = N.land x 15 /\
  N.shiftr (N.shiftl (N.land x 15) 2) 2 = N.land x 15 /\
  N.lor (N.shiftl (N.land (d3 x y) 3) 6) (d4 y) = y.
Proof.
  intros Hx Hy. pose proof (pairs_ok x y Hx Hy) as H. unfold pair_ok in H.
  repeat (apply andb_prop in H as [H ?]).
  repeat match goal with
         | H : (_ <? _) = true |- _ => apply N.ltb_lt in H
         | H : (_ =? _) = true |- _ => apply N.eqb_eq in H
         end.
  repeat split; assumption.
Qed.

Lemma list_ind3 {A : Type} (Q : list A -> Prop) :
  Q [] -> (forall a, Q [a]) -> (forall a b, Q [a; b]) ->
  (forall a b c l, Q l -> Q (a :: b :: c :: l)) ->
  forall l, Q l.
Proof.
  intros H0 H1 H2 H3.
  assert (H : forall l, Q l /\ (forall a, Q (a :: l)) /\ (forall a b, Q (a :: b :: l))).
  { induction l as [|x l (IH0 & IH1 & IH2)]; [now auto |].
    repeat split; auto. }
  intros l. apply H.
Qed.

Lemma decode_encode_octets (l : list N) :
  Forall (fun a => a < 256) l -> decode_digits (encode_octets l) = Some l.
Proof.
  induction l as [| a | a b | a b c l IH] using list_ind3; intros Hl.
  - reflexivity.
  - apply Forall_cons_1 in Hl as [Ha _].
    destruct (pair_facts a a Ha Ha) as ((R1 & _ & _ & _ & R5 & _) & _ & F8 & _).
    cbn [encode_octets decode_digits]. fold (d1 a).
    destruct (digit_value _ R1) as [-> _], (digit_value _ R5) as [-> _].
    cbn. now rewrite F8.
  - apply Forall_cons_1 in Hl as [Ha Hl]. apply Forall_cons_1 in Hl as [Hb _].
    destruct (pair_facts a b Ha Hb) as ((R1 & _ & R3 & _ & _ & _) & F7 & _ & F9 & _).
    destruct (pair_facts b b Hb Hb) as ((_ & _ & _ & _ & _ & R6) & _ & _ & _ & _ & F11 & _).
    cbn [encode_octets decode_digits]. fold (d1 a) (d2 a b).
    destruct (digit_value _ R1) as [-> _], (digit_value _ R3) as [-> _],
             (digit_value _ R6) as [-> ->].
    cbn. now rewrite F7, F11, F9.
  - apply Forall_cons_1 in Hl as [Ha Hl]. apply Forall_cons_1 in Hl as [Hb Hl].
    apply Forall_cons_1 in Hl as [Hc Hl].
    destruct (pair_facts a b Ha Hb) as ((R1 & _ & R3 & _) & F7 & _ & F9 & _).
    destruct (pair_facts b c Hb Hc) as ((_ & _ & _ & R4 & _) & _ & _ & _ & F10 & _ & F12).
    destruct (pair_facts c c Hc Hc) as ((_ & R2 & _) & _).
    cbn [encode_octets decode_digits]. fold (d1 a) (d2 a b) (d3 b c) (d4 c).
    destruct (digit_value _ R1) as [-> _], (digit_value _ R3) as [-> _],
             (digit_value _ R4) as [-> ->], (digit_value _ R2) as [-> ->].
    rewrite (IH Hl). cbn. now rewrite F7, F10, F9, F12.
Qed.

Lemma bytes_of_to_N (buf : list byte) : bytes_of (map Byte.to_N buf) = Some buf.
Proof.
  induction buf as [|x buf IH]; [reflexivity |].
  cbn. now rewrite Byte.of_to_N, IH.
Qed.

Lemma decode_encode (buf : list byte) :
  Base64Inverse.decode (Base64.encode buf) = Some buf.
Proof.
  unfold decode, encode. rewrite list_ascii_of_string_of_list_ascii.
  rewrite decode_encode_octets; [apply bytes_of_to_N |].
  apply List.Forall_forall. intros a Ha. apply in_map_iff in Ha as (x & <- & _).
  pose proof (Byte.to_N_bounded x). lia.
Qed.

End Base64RoundTrip.

Section QrData.

Context {P : Platform}.

(** When [qr/start] answers 200 and the token of the attempt it stored is a
    Buffer, the [qrData] of the answer determines the token: the text after
    the data-URL prefix decodes, as base64, to the token's octets, and any
    other [qr/start], in any state, that gives the same answer for a Buffer
    token stored an attempt with the same octets. *)
Theorem qrData_determines_token env apiId apiHash qr octets :
  status (fst (auth_qr_start apiId apiHash env)) = 200 ->
  qrWaiter (gw (snd (auth_qr_start apiId apiHash env))) = Some qr ->
  token qr = BufferToken octets ->
  (exists text,
     fst (auth_qr_start apiId apiHash env) =
       json (BOkQr ("data:text/plain;base64," +:+ text)) /\
     Base64Inverse.decode text = Some octets) /\
  (forall env' apiId' apiHash' qr' octets',
     status (fst (auth_qr_start apiId' apiHash' env')) = 200 ->
     qrWaiter (gw (snd (auth_qr_start apiId' apiHash' env'))) = Some qr' ->
     token qr' = BufferToken octets' ->
     fst (auth_qr_start apiId' apiHash' env') = fst (auth_qr_start apiId apiHash env) ->
     octets' = octets).
Proof.
  intros H Hq Ht. pose proof (auth_qr_start_200 _ _ _ _ H Hq) as E.
  rewrite Ht in E. cbn [token_toString_base64] in E. split.
  - exists (Base64.encode octets). split; [exact E | apply decode_encode].
  - intros env' apiId' apiHash' qr' octets' H' Hq' Ht' Hsame.
    pose proof (auth_qr_start_200 _ _ _ _ H' Hq') as E'.
    rewrite Ht' in E'. cbn [token_toString_base64] in E'.
    rewrite Hsame, E in E'.
    assert (Henc : Base64.encode octets = Base64.encode octets').
    { injection E' as E'. revert E'. generalize (Base64.encode octets) (Base64.encode octets').
      intros a b E'. exact E'. }
    pose proof (decode_encode octets') as R. rewrite <- Henc, decode_encode in R.
    congruence.
Qed.

End QrData.

(** * The application on concrete requests *)

Section MoreScenarios.

Import Scripted Traffic.

Local Existing Instance cooperative.

Local Open Scope list_scope.

Lemma receive_400_untouched_witness :
  (uploads_of (Unparsed ToAuthSendCode) = [] /\
   status (fst (receive (Unparsed ToAuthSendCode) (fresh cooperative tt))) = 400) /\
  snd (receive (Unparsed ToAuthSendCode) (fresh cooperative tt)) = fresh cooperative tt.
Proof.
  split; [split; reflexivity |].
  apply (receive_400_untouched (P := cooperative)); reflexivity.
Defined.

Lemma serve_failure_keeps_state_witness :
  (is_start (PostAuthVerify phone code) = false /\
   status (fst (serve (PostAuthVerify phone code) (after_sendCode rejecting tt))) = 500) /\
  gw (snd (serve (PostAuthVerify phone code) (after_sendCode rejecting tt))) =
    gw (after_sendCode rejecting tt).
Proof.
  split; [split; reflexivity |].
  apply (serve_failure_keeps_state (P := rejecting)); [reflexivity |].
  vm_compute. discriminate.
Defined.

Lemma client_never_unset_witness :
  client (gw (after_start cooperative tt)) = Some full_client /\
  (exists c', client (gw (snd (serve_all after_login (after_start cooperative tt)))) = Some c') /\
  (forallb (fun req => negb (is_start req)) after_login = true ->
   client (gw (snd (serve_all after_login (after_start cooperative tt)))) = Some full_client).
Proof.
  split; [reflexivity |].
  apply (client_never_unset (P := cooperative)). reflexivity.
Defined.

Lemma nothing_happens_before_start_witness :
  (client (gw (fresh cooperative tt)) = None /\
   qrWaiter (gw (fresh cooperative tt)) = None /\
   forallb (fun i => negb (starts i)) before_start = true /\
   Forall (fun i => uploads_of i = []) before_start) /\
  snd (receive_all before_start (fresh cooperative tt)) = fresh cooperative tt /\
  Forall idle_answer (fst (receive_all before_start (fresh cooperative tt))).
Proof.
  split; [repeat split; repeat constructor |].
  apply (nothing_happens_before_start (P := cooperative));
    try reflexivity; repeat constructor.
Defined.

Lemma falsy_field_rejected_witness :
  truthy (SStr "") = false /\
  rejects_untouched (auth_start (SStr "") (SStr "abc")) (fresh cooperative tt) /\
  rejects_untouched (auth_start (SStr "abc") (SStr "")) (fresh cooperative tt) /\
  rejects_untouched (auth_qr_start (SStr "") (SStr "abc")) (fresh cooperative tt) /\
  rejects_untouched (auth_qr_start (SStr "abc") (SStr "")) (fresh cooperative tt) /\
  rejects_untouched (auth_sendCode (SStr "")) (fresh cooperative tt) /\
  rejects_untouched (auth_verify (SStr "") (SStr "abc")) (fresh cooperative tt) /\
  rejects_untouched (auth_verify (SStr "abc") (SStr "")) (fresh cooperative tt) /\
  rejects_untouched (send (SStr "") uploads) (fresh cooperative tt).
Proof.
  split; [reflexivity |].
  apply (falsy_field_rejected (P := cooperative)). reflexivity.
Defined.

Lemma session_handed_to_library_witness :
  (truthy (SNum 12345) = true /\ truthy (SStr "abc") = true) /\
  (exists ev rest,
     trace (snd (auth_start (SNum 12345) (SStr "abc") logged_in)) =
       trace logged_in ++ ev :: rest /\
     ev_call ev = NewStringSession (or_else (sessionString (gw logged_in)) (SStr ""))) /\
  (exists ev rest,
     trace (snd (auth_qr_start (SNum 12345) (SStr "abc") logged_in)) =
       trace logged_in ++ ev :: rest /\
     ev_call ev = NewStringSession (SStr "")).
Proof.
  split; [split; reflexivity |].
  apply (session_handed_to_library (P := cooperative)); reflexivity.
Defined.


Lemma sendCode_then_verify_witness :
  (client (gw (after_start cooperative tt)) = Some full_client /\
   has_signIn full_client = true /\ truthy phone = true /\ truthy code = true /\
   to_property_key phone <> "__proto__" /\
   code_request full_client phone (after_start cooperative tt) =
     (Ok (Some (with_hash "abc")),
      snd (code_request full_client phone (after_start cooperative tt)))) /\
  exists ev rest,
    trace (snd (auth_verify phone code
                  (snd (auth_sendCode phone (after_start cooperative tt))))) =
      trace (snd (auth_sendCode phone (after_start cooperative tt))) ++ ev :: rest /\
    ev_call ev = SignInObject full_client phone code (VScalar (SStr "abc")).
Proof.
  split; [repeat split; discriminate |].
  apply (sendCode_then_verify (P := cooperative) (after_start cooperative tt)
           full_client phone code (with_hash "abc")
           (snd (code_request full_client phone (after_start cooperative tt))));
    try reflexivity.
  discriminate.
Defined.

Lemma sendCode_other_phones_witness :
  (to_property_key other_phone <> "__proto__" /\
   to_property_key phone <> to_property_key other_phone) /\
  JS.get (phoneState (gw (snd (auth_sendCode other_phone (after_sendCode cooperative tt)))))
         (to_property_key phone) =
  JS.get (phoneState (gw (after_sendCode cooperative tt))) (to_property_key phone).
Proof.
  split; [split; discriminate |].
  apply (sendCode_other_phones (P := cooperative)); discriminate.
Defined.

Lemma sendCode_one_request_witness :
  (client (gw (after_start bare tt)) = Some bare_client /\ truthy phone = true) /\
  exists ev,
    trace (snd (auth_sendCode phone (after_start bare tt))) =
      trace (after_start bare tt) ++ [ev] /\
    ev_call ev = (if has_sendCodeRequest bare_client then SendCodeRequest bare_client phone
                  else SendCode bare_client phone) /\
    (forall e, ev_threw ev = Some e ->
       fst (auth_sendCode phone (after_start bare tt)) = status_json 500 (BError e) /\
       gw (snd (auth_sendCode phone (after_start bare tt))) = gw (after_start bare tt)).
Proof.
  split; [split; reflexivity |].
  apply (sendCode_one_request (P := bare)); reflexivity.
Defined.

Lemma channels_one_call_witness :
  client (gw (after_start cooperative tt)) = Some full_client /\
  exists ev,
    trace (snd (channels (after_start cooperative tt))) =
      trace (after_start cooperative tt) ++ [ev] /\
    ev_call ev = GetDialogs full_client /\
    (forall e, ev_threw ev = Some e ->
       fst (channels (after_start cooperative tt)) = status_json 500 (BError e)) /\
    (ev_threw ev = None ->
     exists (dialogs : list Dialog) chs,
       fst (perform (GetDialogs full_client) (world (after_start cooperative tt))) =
         Ok dialogs /\
       fst (channels (after_start cooperative tt)) = json (BChannels chs) /\
       (length chs <= length dialogs)%nat).
Proof.
  split; [reflexivity |].
  apply (channels_one_call (P := cooperative)). reflexivity.
Defined.

Lemma send_unlinkSync_follows_sendFile_witness :
  (client (gw (after_start flaky tt)) = Some full_client /\ truthy channel = true) /\
  exists evs rest,
    trace (snd (send channel uploads (after_start flaky tt))) =
      trace (after_start flaky tt) ++ evs /\
    performed (world (after_start flaky tt)) evs
      (world (snd (send channel uploads (after_start flaky tt)))) /\
    unlinkSync_paths evs = sendFile_paths evs /\
    map (fun f => @path_resolve flaky (path f)) uploads = unlinkSync_paths evs ++ rest /\
    (fst (send channel uploads (after_start flaky tt)) = json BSent -> rest = []) /\
    (status (fst (send channel uploads (after_start flaky tt))) = 500 ->
     unlinkSync_paths evs <> []).
Proof.
  split; [split; reflexivity |].
  apply (send_unlinkSync_follows_sendFile (P := flaky) (after_start flaky tt) full_client);
    reflexivity.
Defined.

Example send_four_uploads_paths :
  unlinkSync_paths (trace (snd (send channel uploads (after_start flaky tt)))) =
    [ "/tmp/tg_uploads/a1"; "/tmp/tg_uploads/b2"; "/tmp/tg_uploads/c3" ].
Proof. vm_compute. reflexivity. Qed.

Lemma pending_codes_never_evicted_witness :
  is_Some (own (phoneState (gw (after_sendCode cooperative tt))) !! "+10000000000") /\
  is_Some (own (phoneState (gw (snd (serve_all after_login (after_sendCode cooperative tt)))))
             !! "+10000000000").
Proof.
  assert (H : is_Some (own (phoneState (gw (after_sendCode cooperative tt)))
                         !! "+10000000000")).
  { exists (SStr "abc"). reflexivity. }
  split; [exact H |].
  exact (pending_codes_never_evicted (P := cooperative) after_login
           (after_sendCode cooperative tt) "+10000000000" H).
Defined.

Lemma verify_guard_on_unrecorded_phone_witness :
  (client (gw (after_start cooperative tt)) = Some full_client /\
   truthy other_phone = true /\ truthy code = true /\
   own (phoneState (gw (after_start cooperative tt))) !! to_property_key other_phone = None) /\
  (rejects_untouched (auth_verify other_phone code) (after_start cooperative tt) <->
   ~ (proto_null (phoneState (gw (after_start cooperative tt))) = false /\
      (to_property_key other_phone = "__proto__" \/
       In (to_property_key other_phone) object_prototype_methods))).
Proof.
  split; [repeat split |].
  apply (verify_guard_on_unrecorded_phone (P := cooperative)
           (after_start cooperative tt) full_client); reflexivity.
Defined.

Lemma qrData_determines_token_witness :
  (status (fst (auth_qr_start (SNum 12345) (SStr "abc") (fresh cooperative tt))) = 200 /\
   qrWaiter (gw (snd (auth_qr_start (SNum 12345) (SStr "abc") (fresh cooperative tt)))) =
     Some the_qr /\
   token the_qr = BufferToken a_token) /\
  (exists text,
     fst (auth_qr_start (SNum 12345) (SStr "abc") (fresh cooperative tt)) =
       json (BOkQr ("data:text/plain;base64," +:+ text)) /\
     Base64Inverse.decode text = Some a_token) /\
  (forall env' apiId' apiHash' qr' octets',
     status (fst (auth_qr_start apiId' apiHash' env')) = 200 ->
     qrWaiter (gw (snd (auth_qr_start apiId' apiHash' env'))) = Some qr' ->
     token qr' = BufferToken octets' ->
     fst (auth_qr_start apiId' apiHash' env') =
       fst (auth_qr_start (SNum 12345) (SStr "abc") (fresh cooperative tt)) ->
     octets' = a_token).
Proof.
  split; [repeat split |].
  exact (qrData_determines_token (P := cooperative) (fresh cooperative tt)
           (SNum 12345) (SStr "abc") the_qr a_token eq_refl eq_refl eq_refl).
Defined.

Lemma qr_start_then_status_witness :
  status (fst (auth_qr_start (SNum 12345) (SStr "abc") (fresh cooperative tt))) = 200 /\
  exists qr ev rest,
    qrWaiter (gw (snd (auth_qr_start (SNum 12345) (SStr "abc") (fresh cooperative tt)))) =
      Some qr /\
    fst (auth_qr_start (SNum 12345) (SStr "abc") (fresh cooperative tt)) =
      json (BOkQr ("data:text/plain;base64," +:+ token_toString_base64 (token qr))) /\
    trace (snd (auth_qr_status
                  (snd (auth_qr_start (SNum 12345) (SStr "abc") (fresh cooperative tt))))) =
      trace (snd (auth_qr_start (SNum 12345) (SStr "abc") (fresh cooperative tt)))
      ++ ev :: rest /\
    ev_call ev = QrWaitRace qr.
Proof.
  split; [reflexivity |].
  apply (qr_start_then_status (P := cooperative)). reflexivity.
Defined.

End MoreScenarios.
